(** * Configuration resolution of the packer builders

    A shallow embedding of the Prepare / NewConfig functions of the
    amazon, vmware and virtualbox-ovf builders and of the derivation of
    EC2 block-device mappings, with the properties of the spec proved
    (or refuted) against it. *)

From Stdlib Require Import String Ascii List Bool ZArith NArith Lia.
Import ListNotations.
Open Scope string_scope.
Open Scope Z_scope.

(** ** Go values *)
Module Go.

(** A Go [error]. [Errorf] is an error built by [fmt.Errorf] in the
    code under study; [Collab] is an error returned by a collaborator
    whose code is not part of this development (for instance
    [communicator.Config.Prepare]); its message is opaque. *)
Inductive error : Type :=
| Errorf (msg : string)
| Collab (msg : string).

(** [err.Error()]. *)
Definition Error (e : error) : string :=
  match e with Errorf m => m | Collab m => m end.

(** [strings.HasPrefix(s, p)]. *)
Definition HasPrefix (s p : string) : bool := String.prefix p s.

(** [strings.Index(s, sep)] for a one-byte separator: the byte offset of
    its first occurrence, or [-1]. *)
Fixpoint index_from (s : string) (c : ascii) (i : Z) : Z :=
  match s with
  | EmptyString => -1
  | String a s' => if Ascii.eqb a c then i else index_from s' c (i + 1)
  end.
Definition IndexByte (s : string) (c : ascii) : Z := index_from s c 0.

(** [s[0:n]]. *)
Definition slice_to (s : string) (n : Z) : string :=
  String.substring 0 (Z.to_nat n) s.

(** Decimal rendering of an integer ([%d]). *)
Fixpoint digits (fuel : nat) (n : N) (acc : string) : string :=
  match fuel with
  | O => acc
  | S f =>
      let acc' := String (ascii_of_N (48 + N.modulo n 10)) acc in
      if N.ltb n 10 then acc' else digits f (N.div n 10) acc'
  end.
Definition itoa (z : Z) : string :=
  if z <? 0 then "-" ++ digits 64 (Z.to_N (- z)) ""
  else digits 64 (Z.to_N z) "".

(** [x != nil] for a pointer, map or error. *)
Definition not_nil {A : Type} (o : option A) : bool :=
  match o with Some _ => true | None => false end.

(** A Go map value: [None] is the nil map. *)
Definition map_ss : Type := option (list (string * string)).

End Go.
Import Go.

(** ** The EC2 request types (aws-sdk-go, service/ec2); [None] is a nil
    pointer field. *)
Module EC2.

Record EbsBlockDevice : Type := {
  DeleteOnTermination : option bool;
  Encrypted : option bool;
  Iops : option Z;
  KmsKeyId : option string;
  SnapshotId : option string;
  VolumeSize : option Z;
  VolumeType : option string
}.

Record BlockDeviceMapping : Type := {
  DeviceName : option string;
  Ebs : option EbsBlockDevice;
  NoDevice : option string;
  VirtualName : option string
}.

End EC2.

(** ** helper/communicator and the standard library *)
Module Collaborators.

(** [communicator.Config], reduced to the fields that
    [RunConfig.Prepare] reads or writes ([CommType] is the [Type] field). *)
Record CommConfig : Type := {
  CommType : string;
  SSHKeyPairName : string;
  SSHTemporaryKeyPairName : string;
  SSHPrivateKeyFile : string;
  SSHPassword : string;
  SSHInterface : string;
  SSHAgentAuth : bool;
  WinRMPassword : string
}.

(** The collaborators of the configuration code that are outside this
    development: the communicator's own [Prepare] (the new communicator
    settings and the messages of its errors), [uuid.TimeOrderedUUID],
    [os.Stat] ([None] when the path exists, else the error text),
    [net.ParseCIDR] ([None] on success, else the error text),
    [time.ParseDuration] and [strings.ToLower]. *)
Record Env : Type := {
  CommPrepare : CommConfig -> CommConfig * list string;
  TimeOrderedUUID : string;
  Stat : string -> option string;
  ParseCIDR : string -> option string;
  ParseDuration : string -> Z + string;
  ToLower : string -> string;
  InitTimeUnix : Z
}.

End Collaborators.
Import Collaborators.

(** ** builder/amazon/common: block devices *)
Module AmazonCommon.

Record BlockDevice : Type := {
  DeleteOnTermination : bool;
  DeviceName : string;
  Encrypted : option bool;
  IOPS : Z;
  NoDevice : bool;
  SnapshotId : string;
  VirtualName : string;
  VolumeType : string;
  VolumeSize : Z;
  KmsKeyId : string;
  OmitFromArtifact : bool
}.

Record BlockDevices : Type := {
  AMIMappings : list BlockDevice;
  LaunchMappings : list BlockDevice
}.

(** The body of the loop of [buildBlockDevices], for one device. *)
Definition buildBlockDevice (blockDevice : BlockDevice) : EC2.BlockDeviceMapping :=
  if NoDevice blockDevice then
    {| EC2.DeviceName := Some (DeviceName blockDevice);
       EC2.Ebs := None;
       EC2.NoDevice := Some "";
       EC2.VirtualName := None |}
  else if negb (String.eqb (VirtualName blockDevice) "") then
    {| EC2.DeviceName := Some (DeviceName blockDevice);
       EC2.Ebs := None;
       EC2.NoDevice := None;
       EC2.VirtualName :=
         if HasPrefix (VirtualName blockDevice) "ephemeral"
         then Some (VirtualName blockDevice) else None |}
  else
    let ebsBlockDevice :=
      {| EC2.DeleteOnTermination := Some (DeleteOnTermination blockDevice);
         EC2.VolumeType :=
           if negb (String.eqb (VolumeType blockDevice) "")
           then Some (VolumeType blockDevice) else None;
         EC2.VolumeSize :=
           if 0 <? VolumeSize blockDevice
           then Some (VolumeSize blockDevice) else None;
         (* IOPS is only valid for io1 type *)
         EC2.Iops :=
           if String.eqb (VolumeType blockDevice) "io1"
           then Some (IOPS blockDevice) else None;
         EC2.SnapshotId :=
           if negb (String.eqb (SnapshotId blockDevice) "")
           then Some (SnapshotId blockDevice) else None;
         EC2.Encrypted := Encrypted blockDevice;
         EC2.KmsKeyId :=
           if negb (String.eqb (KmsKeyId blockDevice) "")
           then Some (KmsKeyId blockDevice) else None |} in
    {| EC2.DeviceName := Some (DeviceName blockDevice);
       EC2.Ebs := Some ebsBlockDevice;
       EC2.NoDevice := None;
       EC2.VirtualName := None |}.

(** [buildBlockDevices]: one [append] per element of the input slice. *)
Fixpoint buildBlockDevices (b : list BlockDevice) : list EC2.BlockDeviceMapping :=
  match b with
  | [] => []
  | blockDevice :: rest => buildBlockDevice blockDevice :: buildBlockDevices rest
  end.

(** [BlockDevice.Prepare]: returns at the first violated rule. *)
Definition BlockDevice_Prepare (b : BlockDevice) : option error :=
  if String.eqb (DeviceName b) "" then
    Some (Errorf ("The `device_name` must be specified " ++
                  "for every device in the block device mapping."))
  else if negb (String.eqb (KmsKeyId b) "") &&
          match Encrypted b with Some e => Bool.eqb e false | None => false end then
    Some (Errorf ("The device " ++ DeviceName b ++ ", must also have `encrypted: " ++
                  "true` when setting a kms_key_id."))
  else None.

(** One loop of [BlockDevices.Prepare] over a list of devices. *)
Fixpoint prepare_mappings (label : string) (ds : list BlockDevice) : list error :=
  match ds with
  | [] => []
  | d :: rest =>
      match BlockDevice_Prepare d with
      | Some err => Errorf (label ++ ": " ++ Error err) :: prepare_mappings label rest
      | None => prepare_mappings label rest
      end
  end.

(** [BlockDevices.Prepare]. *)
Definition BlockDevices_Prepare (b : BlockDevices) : list error :=
  prepare_mappings "AMIMapping" (AMIMappings b) ++
  prepare_mappings "LaunchMapping" (LaunchMappings b).

(** ** builder/amazon/common: run configuration *)

Record AmiFilterOptions : Type := {
  Filters : list (string * string);
  Owners : list string;
  MostRecent : bool
}.

Definition AmiFilterOptions_Empty (d : AmiFilterOptions) : bool :=
  Nat.eqb (length (Owners d)) 0 && Nat.eqb (length (Filters d)) 0.

Definition AmiFilterOptions_NoOwner (d : AmiFilterOptions) : bool :=
  Nat.eqb (length (Owners d)) 0.

(** [RunConfig], with the fields that [Prepare] reads or writes; a
    [time.Duration] is an integer number of nanoseconds. *)
Record RunConfig : Type := {
  BlockDurationMinutes : Z;
  EnableT2Unlimited : bool;
  InstanceInitiatedShutdownBehavior : string;
  InstanceType : string;
  RunTags : map_ss;
  SecurityGroupId : string;
  SecurityGroupIds : list string;
  SourceAmi : string;
  SourceAmiFilter : AmiFilterOptions;
  SpotInstanceTypes : list string;
  SpotPrice : string;
  SpotPriceAutoProduct : string;
  SpotTags : map_ss;
  TemporarySGSourceCidrs : list string;
  UserData : string;
  UserDataFile : string;
  WindowsPasswordTimeout : Z;
  Comm : CommConfig
}.

Definition Minute : Z := 60 * 1000000000.

Definition neq (s t : string) : bool := negb (String.eqb s t).

(** [reShutdownBehavior = regexp.MustCompile("^(stop|terminate)$")]. *)
Definition reShutdownBehavior_MatchString (s : string) : bool :=
  String.eqb s "stop" || String.eqb s "terminate".

Definition set_SSHTemporaryKeyPairName (k : CommConfig) (n : string) : CommConfig :=
  {| CommType := CommType k; SSHKeyPairName := SSHKeyPairName k;
     SSHTemporaryKeyPairName := n; SSHPrivateKeyFile := SSHPrivateKeyFile k;
     SSHPassword := SSHPassword k; SSHInterface := SSHInterface k;
     SSHAgentAuth := SSHAgentAuth k; WinRMPassword := WinRMPassword k |}.

(** The condition under which a temporary key pair name is generated. *)
Definition no_ssh_credentials (k : CommConfig) : bool :=
  String.eqb (SSHKeyPairName k) "" && String.eqb (SSHTemporaryKeyPairName k) "" &&
  String.eqb (SSHPrivateKeyFile k) "" && String.eqb (SSHPassword k) "".

(** The first statement of [RunConfig.Prepare]. *)
Definition default_SSHTemporaryKeyPairName (env : Env) (k : CommConfig) : CommConfig :=
  if no_ssh_credentials k
  then set_SSHTemporaryKeyPairName k ("packer_" ++ TimeOrderedUUID env)
  else k.

(** The validation rules of [RunConfig.Prepare], one per [if] block, each
    giving the errors its block appends to [errs]. *)
Definition check_SSHInterface (k : CommConfig) : list error :=
  if neq (SSHInterface k) "public_ip" && neq (SSHInterface k) "private_ip" &&
     neq (SSHInterface k) "public_dns" && neq (SSHInterface k) "private_dns" &&
     neq (SSHInterface k) ""
  then [Errorf ("Unknown interface type: " ++ SSHInterface k)] else [].

Definition check_SSHKeyPairName (k : CommConfig) : list error :=
  if neq (SSHKeyPairName k) "" then
    if String.eqb (CommType k) "winrm" && String.eqb (WinRMPassword k) "" &&
       String.eqb (SSHPrivateKeyFile k) ""
    then [Errorf "ssh_private_key_file must be provided to retrieve the winrm password when using ssh_keypair_name."]
    else if String.eqb (SSHPrivateKeyFile k) "" && negb (SSHAgentAuth k)
    then [Errorf "ssh_private_key_file must be provided or ssh_agent_auth enabled when ssh_keypair_name is specified."]
    else []
  else [].

Definition msg_source_ami : string := "A source_ami or source_ami_filter must be specified".
Definition msg_owner : string := "For security reasons, your source AMI filter must declare an owner.".
Definition msg_instance_type : string := "either instance_type or spot_instance_types must be specified".
Definition msg_instance_type_both : string :=
  "either instance_type or spot_instance_types must be specified, not both".
Definition msg_block_duration : string := "block_duration_minutes must be multiple of 60".
Definition msg_auto_product : string := "spot_price_auto_product must be specified when spot_price is auto".
Definition msg_spot_auto : string :=
  "spot_price should be set to auto when spot_price_auto_product is specified".
Definition msg_spot_tags : string := "spot_tags should not be set when not requesting a spot instance".
Definition msg_user_data : string := "Only one of user_data or user_data_file can be specified.".
Definition msg_security_group : string :=
  "Only one of security_group_id or security_group_ids can be specified.".
Definition msg_shutdown : string := "shutdown_behavior only accepts 'stop' or 'terminate' values.".
Definition msg_t2_spot : string := "Error: T2 Unlimited cannot be used in conjuction with Spot Instances".

Definition check_SourceAmi (c : RunConfig) : list error :=
  if String.eqb (SourceAmi c) "" && AmiFilterOptions_Empty (SourceAmiFilter c)
  then [Errorf msg_source_ami] else [].

Definition check_SourceAmiOwner (c : RunConfig) : list error :=
  if String.eqb (SourceAmi c) "" && AmiFilterOptions_NoOwner (SourceAmiFilter c)
  then [Errorf msg_owner] else [].

Definition check_InstanceType (c : RunConfig) : list error :=
  if String.eqb (InstanceType c) "" && Nat.eqb (length (SpotInstanceTypes c)) 0
  then [Errorf msg_instance_type] else [].

Definition check_InstanceTypeBoth (c : RunConfig) : list error :=
  if neq (InstanceType c) "" && Nat.ltb 0 (length (SpotInstanceTypes c))
  then [Errorf msg_instance_type_both] else [].

(** [c.BlockDurationMinutes%60 != 0], with Go's truncated remainder. *)
Definition check_BlockDurationMinutes (c : RunConfig) : list error :=
  if negb (Z.eqb (Z.rem (BlockDurationMinutes c) 60) 0)
  then [Errorf msg_block_duration] else [].

Definition check_SpotPriceAuto (c : RunConfig) : list error :=
  if String.eqb (SpotPrice c) "auto" then
    if String.eqb (SpotPriceAutoProduct c) "" then [Errorf msg_auto_product] else []
  else [].

Definition check_SpotPriceAutoProduct (c : RunConfig) : list error :=
  if neq (SpotPriceAutoProduct c) "" then
    if neq (SpotPrice c) "auto" then [Errorf msg_spot_auto] else []
  else [].

Definition check_SpotTags (c : RunConfig) : list error :=
  if not_nil (SpotTags c) then
    if String.eqb (SpotPrice c) "" || String.eqb (SpotPrice c) "0"
    then [Errorf msg_spot_tags] else []
  else [].

Definition check_UserData (env : Env) (c : RunConfig) : list error :=
  if neq (UserData c) "" && neq (UserDataFile c) "" then [Errorf msg_user_data]
  else if neq (UserDataFile c) "" then
    if not_nil (Stat env (UserDataFile c))
    then [Errorf ("user_data_file not found: " ++ UserDataFile c)] else []
  else [].

(** The security-group block: new [SecurityGroupId], new
    [SecurityGroupIds], and its errors. *)
Definition prepare_SecurityGroup (c : RunConfig) : string * list string * list error :=
  if neq (SecurityGroupId c) "" then
    if Nat.ltb 0 (length (SecurityGroupIds c))
    then (SecurityGroupId c, SecurityGroupIds c, [Errorf msg_security_group])
    else ("", [SecurityGroupId c], [])
  else (SecurityGroupId c, SecurityGroupIds c, []).

(** The loop over [TemporarySGSourceCidrs]. *)
Fixpoint check_cidrs (env : Env) (cidrs : list string) : list error :=
  match cidrs with
  | [] => []
  | cidr :: rest =>
      match ParseCIDR env cidr with
      | Some err =>
          Errorf ("Error parsing CIDR in temporary_security_group_source_cidrs: " ++ err)
            :: check_cidrs env rest
      | None => check_cidrs env rest
      end
  end.

Definition prepare_TemporarySGSourceCidrs (env : Env) (c : RunConfig)
  : list string * list error :=
  match TemporarySGSourceCidrs c with
  | [] => (["0.0.0.0/0"], [])
  | cidrs => (cidrs, check_cidrs env cidrs)
  end.

Definition prepare_ShutdownBehavior (c : RunConfig) : string * list error :=
  if String.eqb (InstanceInitiatedShutdownBehavior c) "" then ("stop", [])
  else if negb (reShutdownBehavior_MatchString (InstanceInitiatedShutdownBehavior c))
  then (InstanceInitiatedShutdownBehavior c, [Errorf msg_shutdown])
  else (InstanceInitiatedShutdownBehavior c, []).

Definition check_T2Unlimited (c : RunConfig) : list error :=
  if EnableT2Unlimited c then
    ((if neq (SpotPrice c) "" then [Errorf msg_t2_spot] else []) ++
    (let firstDotIndex := IndexByte (InstanceType c) "."%char in
     if Z.eqb firstDotIndex (-1) then
       [Errorf ("Error determining main Instance Type from: " ++ InstanceType c)]
     else if neq (slice_to (InstanceType c) firstDotIndex) "t2" then
       [Errorf ("Error: T2 Unlimited enabled with a non-T2 Instance Type: " ++ InstanceType c)]
     else []))%list
  else [].

(** [RunConfig.Prepare]: the defaulted configuration and the error list.
    The statements follow the source in order; [c.Comm.Prepare] mutates
    [c.Comm], so the later rules read the communicator it returns. *)
Definition RunConfig_Prepare (env : Env) (c : RunConfig) : RunConfig * list error :=
  let comm0 := default_SSHTemporaryKeyPairName env (Comm c) in
  let windowsPasswordTimeout :=
    if Z.eqb (WindowsPasswordTimeout c) 0 then 20 * Minute
    else WindowsPasswordTimeout c in
  let runTags := match RunTags c with None => Some [] | Some m => Some m end in
  let '(comm, commErrs) := CommPrepare env comm0 in
  let errs := map Collab commErrs in
  let errs := (errs ++ check_SSHInterface comm)%list in
  let errs := (errs ++ check_SSHKeyPairName comm)%list in
  let errs := (errs ++ check_SourceAmi c)%list in
  let errs := (errs ++ check_SourceAmiOwner c)%list in
  let errs := (errs ++ check_InstanceType c)%list in
  let errs := (errs ++ check_InstanceTypeBoth c)%list in
  let errs := (errs ++ check_BlockDurationMinutes c)%list in
  let errs := (errs ++ check_SpotPriceAuto c)%list in
  let errs := (errs ++ check_SpotPriceAutoProduct c)%list in
  let errs := (errs ++ check_SpotTags c)%list in
  let errs := (errs ++ check_UserData env c)%list in
  let '(sgId, sgIds, sgErrs) := prepare_SecurityGroup c in
  let errs := (errs ++ sgErrs)%list in
  let '(cidrs, cidrErrs) := prepare_TemporarySGSourceCidrs env c in
  let errs := (errs ++ cidrErrs)%list in
  let '(shutdown, shutdownErrs) := prepare_ShutdownBehavior c in
  let errs := (errs ++ shutdownErrs)%list in
  let errs := (errs ++ check_T2Unlimited c)%list in
  ({| BlockDurationMinutes := BlockDurationMinutes c;
      EnableT2Unlimited := EnableT2Unlimited c;
      InstanceInitiatedShutdownBehavior := shutdown;
      InstanceType := InstanceType c;
      RunTags := runTags;
      SecurityGroupId := sgId;
      SecurityGroupIds := sgIds;
      SourceAmi := SourceAmi c;
      SourceAmiFilter := SourceAmiFilter c;
      SpotInstanceTypes := SpotInstanceTypes c;
      SpotPrice := SpotPrice c;
      SpotPriceAutoProduct := SpotPriceAutoProduct c;
      SpotTags := SpotTags c;
      TemporarySGSourceCidrs := cidrs;
      UserData := UserData c;
      UserDataFile := UserDataFile c;
      WindowsPasswordTimeout := windowsPasswordTimeout;
      Comm := comm |}, errs).

(** ** builder/amazon/common: the other block-device and run-config methods *)

(** [AMIBlockDevices.BuildAMIDevices] and [LaunchBlockDevices.BuildLaunchDevices],
    promoted to [BlockDevices] from its embedded structs. *)
Definition BuildAMIDevices (b : BlockDevices) : list EC2.BlockDeviceMapping :=
  buildBlockDevices (AMIMappings b).

Definition BuildLaunchDevices (b : BlockDevices) : list EC2.BlockDeviceMapping :=
  buildBlockDevices (LaunchMappings b).

(** A Go [map[string]bool]: an association list holding each key once.
    [map_set] is the assignment [m[k] = v] (it overwrites the entry of an
    existing key); [map_get m k] is the comma-ok lookup [v, ok := m[k]],
    [None] when the key is absent. *)
Definition map_sb : Type := list (string * bool).

Fixpoint map_set (k : string) (v : bool) (m : map_sb) : map_sb :=
  match m with
  | [] => [(k, v)]
  | (k', v') :: m' => if String.eqb k' k then (k, v) :: m' else (k', v') :: map_set k v m'
  end.

Fixpoint map_get (m : map_sb) (k : string) : option bool :=
  match m with
  | [] => None
  | (k', v) :: m' => if String.eqb k' k then Some v else map_get m' k
  end.

(** The body of the loop of [GetOmissions]. *)
Definition omit_step (omitMap : map_sb) (blockDevice : BlockDevice) : map_sb :=
  map_set (DeviceName blockDevice) (OmitFromArtifact blockDevice) omitMap.

(** [LaunchBlockDevices.GetOmissions], promoted to [BlockDevices]. *)
Definition GetOmissions (b : BlockDevices) : map_sb :=
  fold_left omit_step (LaunchMappings b) [].

(** [RunConfig.IsSpotInstance]. *)
Definition IsSpotInstance (c : RunConfig) : bool :=
  neq (SpotPrice c) "" && neq (SpotPrice c) "0".

End AmazonCommon.

(** ** builder/vmware/common: shutdown configuration *)
Module VmwareCommon.

Record ShutdownConfig : Type := {
  ShutdownCommand : string;
  RawShutdownTimeout : string;
  ShutdownTimeout : Z
}.

(** [ShutdownConfig.Prepare]; on a parse error [time.ParseDuration]
    returns the zero duration, which is assigned all the same. *)
Definition ShutdownConfig_Prepare (env : Env) (c : ShutdownConfig)
  : ShutdownConfig * list error :=
  let raw := if String.eqb (RawShutdownTimeout c) "" then "5m" else RawShutdownTimeout c in
  match ParseDuration env raw with
  | inl d =>
      ({| ShutdownCommand := ShutdownCommand c; RawShutdownTimeout := raw;
          ShutdownTimeout := d |}, [])
  | inr err =>
      ({| ShutdownCommand := ShutdownCommand c; RawShutdownTimeout := raw;
          ShutdownTimeout := 0 |},
       [Errorf ("Failed parsing shutdown_timeout: " ++ err)])
  end.

End VmwareCommon.

(** ** packer: the multi-error accumulator *)
Module MultiError.

(** The heap of [*MultiError] objects: the [Errors] slice of each
    allocated object, indexed by its address. A [*MultiError] variable
    is [None] (nil) or [Some] address. *)
Definition heap : Type := list (list error).
Definition ptr : Type := option nat.

Fixpoint set_nth {A} (n : nat) (x : A) (l : list A) : list A :=
  match n, l with
  | O, _ :: l' => x :: l'
  | S n', y :: l' => y :: set_nth n' x l'
  | _, [] => []
  end.

Definition Errors (h : heap) (l : nat) : list error := nth l h [].

(** Modelled from the spec: [packer.MultiErrorAppend] (packer/multi_error.go,
    not among the sources), the "multi-error accumulation via mutable
    pointer passed through many functions". On a nil [*MultiError] it
    allocates a new object holding the appended errors; on a non-nil one it
    appends to that object's [Errors] in place and returns the same
    pointer. *)
Definition MultiErrorAppend (h : heap) (p : ptr) (es : list error) : heap * ptr :=
  match p with
  | None => ((h ++ [es])%list, Some (length h))
  | Some l => (set_nth l (Errors h l ++ es)%list h, Some l)
  end.

End MultiError.

(** ** builder/virtualbox/ovf: NewConfig *)
Module VirtualboxOvf.
Import MultiError.

(** The ovf [Config], with the leaf fields [NewConfig] reads or writes;
    [PackerBuildName] comes from the embedded [common.PackerConfig] and
    [ShutdownCommand] from the embedded [vboxcommon.ShutdownConfig]. *)
Record Config : Type := {
  PackerBuildName : string;
  ShutdownCommand : string;
  Checksum : string;
  ChecksumType : string;
  GuestAdditionsMode : string;
  GuestAdditionsPath : string;
  GuestAdditionsInterface : string;
  GuestAdditionsSHA256 : string;
  ImportFlags : list string;
  ImportOpts : string;
  SourcePath : string;
  VMName : string
}.

(** vboxcommon.GuestAdditionsModeDisable, ...Attach, ...Upload. *)
Definition validModes : list string := ["disable"; "attach"; "upload"].

Definition msg_shutdown_warning : string :=
  "A shutdown_command was not specified. Without a shutdown command, Packer" ++
  String (ascii_of_nat 10) "will forcibly halt the virtual machine, which may result in data loss.".

(** The defaults block of [NewConfig]. *)
Definition defaults (env : Env) (c : Config) : Config :=
  {| PackerBuildName := PackerBuildName c;
     ShutdownCommand := ShutdownCommand c;
     Checksum := Checksum c;
     ChecksumType := ChecksumType c;
     GuestAdditionsMode :=
       if String.eqb (GuestAdditionsMode c) "" then "upload" else GuestAdditionsMode c;
     GuestAdditionsPath :=
       if String.eqb (GuestAdditionsPath c) "" then "VBoxGuestAdditions.iso"
       else GuestAdditionsPath c;
     GuestAdditionsInterface :=
       if String.eqb (GuestAdditionsInterface c) "" then "ide" else GuestAdditionsInterface c;
     GuestAdditionsSHA256 := GuestAdditionsSHA256 c;
     ImportFlags := ImportFlags c;
     ImportOpts := ImportOpts c;
     SourcePath := SourcePath c;
     VMName :=
       if String.eqb (VMName c) ""
       then "packer-" ++ PackerBuildName c ++ "-" ++ itoa (InitTimeUnix env)
       else VMName c |}.

Definition lower_checksums (env : Env) (c : Config) : Config :=
  {| PackerBuildName := PackerBuildName c; ShutdownCommand := ShutdownCommand c;
     Checksum := ToLower env (Checksum c); ChecksumType := ToLower env (ChecksumType c);
     GuestAdditionsMode := GuestAdditionsMode c; GuestAdditionsPath := GuestAdditionsPath c;
     GuestAdditionsInterface := GuestAdditionsInterface c;
     GuestAdditionsSHA256 := GuestAdditionsSHA256 c; ImportFlags := ImportFlags c;
     ImportOpts := ImportOpts c; SourcePath := SourcePath c; VMName := VMName c |}.

Definition set_GuestAdditionsSHA256 (c : Config) (v : string) : Config :=
  {| PackerBuildName := PackerBuildName c; ShutdownCommand := ShutdownCommand c;
     Checksum := Checksum c; ChecksumType := ChecksumType c;
     GuestAdditionsMode := GuestAdditionsMode c; GuestAdditionsPath := GuestAdditionsPath c;
     GuestAdditionsInterface := GuestAdditionsInterface c;
     GuestAdditionsSHA256 := v; ImportFlags := ImportFlags c;
     ImportOpts := ImportOpts c; SourcePath := SourcePath c; VMName := VMName c |}.

Definition set_ImportFlags (c : Config) (v : list string) : Config :=
  {| PackerBuildName := PackerBuildName c; ShutdownCommand := ShutdownCommand c;
     Checksum := Checksum c; ChecksumType := ChecksumType c;
     GuestAdditionsMode := GuestAdditionsMode c; GuestAdditionsPath := GuestAdditionsPath c;
     GuestAdditionsInterface := GuestAdditionsInterface c;
     GuestAdditionsSHA256 := GuestAdditionsSHA256 c; ImportFlags := v;
     ImportOpts := ImportOpts c; SourcePath := SourcePath c; VMName := VMName c |}.

(** The error lists returned by the [Prepare] methods of the thirteen
    embedded sub-configurations (their code is not among the sources). *)
Record SubConfigErrors : Type := {
  ExportConfigErrs : list error;
  ExportOptsErrs : list error;
  FloppyConfigErrs : list error;
  HTTPConfigErrs : list error;
  OutputConfigErrs : list error;
  RunConfigErrs : list error;
  ShutdownConfigErrs : list error;
  SSHConfigErrs : list error;
  VBoxManageConfigErrs : list error;
  VBoxManagePostConfigErrs : list error;
  VBoxVersionConfigErrs : list error;
  BootConfigErrs : list error;
  GuestAdditionsConfigErrs : list error
}.

(** The thirteen [errs = packer.MultiErrorAppend(errs, c.X.Prepare(&c.ctx)...)]
    lines, in source order. *)
Definition append_step (st : heap * ptr) (es : list error) : heap * ptr :=
  let '(h, p) := st in MultiErrorAppend h p es.

Definition append_components (h : heap) (errs : ptr) (r : SubConfigErrors) : heap * ptr :=
  fold_left append_step
    [ExportConfigErrs r; ExportOptsErrs r; FloppyConfigErrs r; HTTPConfigErrs r;
     OutputConfigErrs r; RunConfigErrs r; ShutdownConfigErrs r; SSHConfigErrs r;
     VBoxManageConfigErrs r; VBoxManagePostConfigErrs r; VBoxVersionConfigErrs r;
     BootConfigErrs r; GuestAdditionsConfigErrs r]
    (h, errs).

(** [NewConfig], from the decoded configuration on: the resolved
    configuration (nil on failure), the warnings, and the [Errors] of the
    returned [*MultiError] (nil on success). *)
Definition NewConfig (env : Env) (components : Config -> SubConfigErrors) (c0 : Config)
  : option Config * list string * option (list error) :=
  let c := defaults env c0 in
  let '(h, errs) := append_components [] None (components c) in
  let c := lower_checksums env c in
  let '(h, errs) :=
    if String.eqb (SourcePath c) ""
    then MultiErrorAppend h errs [Errorf "source_path is required"]
    else (h, errs) in
  (* the returned pointer is discarded; the heap effect stays *)
  let h :=
    match Stat env (SourcePath c) with
    | Some err =>
        fst (MultiErrorAppend h errs
               [Errorf ("Source file '" ++ SourcePath c ++
                        "' needs to exist at time of config validation! " ++ err)])
    | None => h
    end in
  let validMode := existsb (String.eqb (GuestAdditionsMode c)) validModes in
  let '(h, errs) :=
    if negb validMode
    then MultiErrorAppend h errs
           [Errorf "guest_additions_mode is invalid. Must be one of: [disable attach upload]"]
    else (h, errs) in
  let c :=
    if negb (String.eqb (GuestAdditionsSHA256 c) "")
    then set_GuestAdditionsSHA256 c (ToLower env (GuestAdditionsSHA256 c)) else c in
  let warnings :=
    if String.eqb (ShutdownCommand c) "" then [msg_shutdown_warning] else [] in
  match errs with
  | Some l =>
      if Nat.ltb 0 (length (Errors h l)) then (None, warnings, Some (Errors h l))
      else
        let c := if negb (String.eqb (ImportOpts c) "")
                 then set_ImportFlags c (ImportFlags c ++ ["--options"; ImportOpts c])%list
                 else c in
        (Some c, warnings, None)
  | None =>
      let c := if negb (String.eqb (ImportOpts c) "")
               then set_ImportFlags c (ImportFlags c ++ ["--options"; ImportOpts c])%list
               else c in
      (Some c, warnings, None)
  end.

End VirtualboxOvf.

(** * Properties *)

(** ** Block-device mappings *)
Module BlockDeviceProofs.
Import AmazonCommon.

(** The number of the three backend device kinds a mapping is of:
    suppressed ([NoDevice] set), ephemeral ([VirtualName] set) and
    persistent ([Ebs] set). *)
Definition kinds (m : EC2.BlockDeviceMapping) : nat :=
  (if EC2.NoDevice m then 1 else 0) + (if EC2.VirtualName m then 1 else 0) +
  (if EC2.Ebs m then 1 else 0).

Definition dev (name virtual : string) (nodev : bool) : BlockDevice :=
  {| DeleteOnTermination := false; DeviceName := name; Encrypted := None; IOPS := 0;
     NoDevice := nodev; SnapshotId := ""; VirtualName := virtual; VolumeType := "";
     VolumeSize := 0; KmsKeyId := ""; OmitFromArtifact := false |}.

Example build_ephemeral :
  EC2.VirtualName (buildBlockDevice (dev "/dev/sdb" "ephemeral0" false)) = Some "ephemeral0".
Proof. reflexivity. Qed.

Lemma nth_error_buildBlockDevices (b : list BlockDevice) (i : nat) :
  nth_error (buildBlockDevices b) i = option_map buildBlockDevice (nth_error b i).
Proof.
  revert i; induction b as [|d b IH]; intros [|i]; simpl; auto.
Qed.

Lemma buildBlockDevices_map (b : list BlockDevice) :
  buildBlockDevices b = map buildBlockDevice b.
Proof. induction b as [|d b IH]; simpl; congruence. Qed.

(** C9: [buildBlockDevices] returns one mapping per input device, in input
    order, and the i-th mapping carries the i-th device's name, whatever the
    kind of the device. *)
Theorem buildBlockDevices_one_per_device (b : list BlockDevice) :
  length (buildBlockDevices b) = length b /\
  (forall i, nth_error (buildBlockDevices b) i = option_map buildBlockDevice (nth_error b i)) /\
  map EC2.DeviceName (buildBlockDevices b) = map (fun d => Some (DeviceName d)) b.
Proof.
  rewrite buildBlockDevices_map. split; [|split].
  - apply length_map.
  - intro i. rewrite <- buildBlockDevices_map. apply nth_error_buildBlockDevices.
  - rewrite map_map. apply map_ext. intro d. unfold buildBlockDevice.
    destruct (NoDevice d); [reflexivity|].
    destruct (negb (String.eqb (VirtualName d) "")); reflexivity.
Qed.

(** C3 (as stated): a device with a virtual name that lacks the
    "ephemeral" prefix yields a mapping of none of the three kinds. *)
Lemma buildBlockDevices_no_kind_counterexample :
  map kinds (buildBlockDevices [dev "/dev/sdb" "swap" false]) = [0%nat].
Proof. reflexivity. Qed.

(** The case of the device-kind selection in which no kind is set. *)
Definition kindless (d : BlockDevice) : bool :=
  negb (NoDevice d) && negb (String.eqb (VirtualName d) "") && negb (HasPrefix (VirtualName d) "ephemeral").

(** C3 (amended): every mapping is of at most one kind; it is of exactly
    one kind unless the device is not suppressed and has a non-empty
    virtual name without the "ephemeral" prefix, in which case it is of
    none (only its device name is set). *)
Theorem buildBlockDevices_kinds (b : list BlockDevice) :
  Forall2 (fun d m => kinds m = (if kindless d then 0 else 1)%nat /\
                      EC2.DeviceName m = Some (DeviceName d))
          b (buildBlockDevices b).
Proof.
  induction b as [|d b IH]; simpl; constructor; auto.
  unfold buildBlockDevice, kindless, kinds.
  destruct (NoDevice d); simpl; [split; reflexivity|].
  destruct (String.eqb (VirtualName d) "") eqn:E; simpl; [split; reflexivity|].
  destruct (HasPrefix (VirtualName d) "ephemeral"); split; reflexivity.
Qed.

(** C5: for a device that is neither suppressed nor virtual the mapping is
    persistent, and its [Ebs] request has the size iff the given size is
    positive, the IOPS iff the type is "io1", the snapshot iff one is given,
    the encryption flag as given and the KMS key as given (a nil pointer for
    the empty key). *)
Theorem buildBlockDevices_persistent (b : list BlockDevice) (i : nat) (d : BlockDevice) :
  nth_error b i = Some d ->
  NoDevice d = false ->
  VirtualName d = "" ->
  exists ebs,
    option_map EC2.Ebs (nth_error (buildBlockDevices b) i) = Some (Some ebs) /\
    (EC2.VolumeSize ebs <> None <-> 0 < VolumeSize d) /\
    (forall v, EC2.VolumeSize ebs = Some v -> v = VolumeSize d) /\
    (EC2.Iops ebs <> None <-> VolumeType d = "io1") /\
    (forall v, EC2.Iops ebs = Some v -> v = IOPS d) /\
    (EC2.SnapshotId ebs <> None <-> SnapshotId d <> "") /\
    (forall v, EC2.SnapshotId ebs = Some v -> v = SnapshotId d) /\
    EC2.Encrypted ebs = Encrypted d /\
    EC2.KmsKeyId ebs = (if String.eqb (KmsKeyId d) "" then None else Some (KmsKeyId d)).
Proof.
  intros Hi Hn Hv. rewrite nth_error_buildBlockDevices, Hi. simpl.
  unfold buildBlockDevice. rewrite Hn, Hv. simpl.
  eexists; split; [reflexivity|]. simpl.
  destruct (0 <? VolumeSize d) eqn:E1;
    destruct (String.eqb (VolumeType d) "io1") eqn:E2;
    destruct (String.eqb (SnapshotId d) "") eqn:E3;
    destruct (String.eqb (KmsKeyId d) "") eqn:E4; simpl;
    rewrite ?Z.ltb_lt, ?Z.ltb_ge, ?String.eqb_eq, ?String.eqb_neq in *;
    repeat split; intros; try congruence; lia.
Qed.

Lemma buildBlockDevices_persistent_witness :
  exists ebs,
    option_map EC2.Ebs (nth_error (buildBlockDevices [dev "/dev/sda1" "" false]) 0) = Some (Some ebs) /\
    (EC2.VolumeSize ebs <> None <-> 0 < VolumeSize (dev "/dev/sda1" "" false)) /\
    (forall v, EC2.VolumeSize ebs = Some v -> v = VolumeSize (dev "/dev/sda1" "" false)) /\
    (EC2.Iops ebs <> None <-> VolumeType (dev "/dev/sda1" "" false) = "io1") /\
    (forall v, EC2.Iops ebs = Some v -> v = IOPS (dev "/dev/sda1" "" false)) /\
    (EC2.SnapshotId ebs <> None <-> SnapshotId (dev "/dev/sda1" "" false) <> "") /\
    (forall v, EC2.SnapshotId ebs = Some v -> v = SnapshotId (dev "/dev/sda1" "" false)) /\
    EC2.Encrypted ebs = Encrypted (dev "/dev/sda1" "" false) /\
    EC2.KmsKeyId ebs = (if String.eqb (KmsKeyId (dev "/dev/sda1" "" false)) "" then None
                        else Some (KmsKeyId (dev "/dev/sda1" "" false))).
Proof.
  apply (buildBlockDevices_persistent [dev "/dev/sda1" "" false] 0 (dev "/dev/sda1" "" false));
    reflexivity.
Defined.

Lemma prepare_mappings_nonempty (label : string) (ds : list BlockDevice) (d : BlockDevice) :
  In d ds -> BlockDevice_Prepare d <> None -> prepare_mappings label ds <> [].
Proof.
  induction ds as [|d' ds IH]; simpl; [tauto|].
  intros [->|Hin] Hp.
  - destruct (BlockDevice_Prepare d); [discriminate|congruence].
  - destruct (BlockDevice_Prepare d'); [discriminate|auto].
Qed.

Lemma BlockDevice_Prepare_kms (d : BlockDevice) :
  KmsKeyId d <> "" -> Encrypted d = Some false -> BlockDevice_Prepare d <> None.
Proof.
  intros Hk He. unfold BlockDevice_Prepare.
  destruct (String.eqb (DeviceName d) ""); [discriminate|].
  rewrite He. apply String.eqb_neq in Hk. rewrite Hk. simpl. discriminate.
Qed.

(** C6: a device with a KMS key and an explicit [encrypted: false] fails
    [BlockDevice.Prepare], and [BlockDevices.Prepare] reports at least one
    error when such a device is among the AMI or launch mappings. *)
Theorem BlockDevices_Prepare_kms_unencrypted (b : BlockDevices) (d : BlockDevice) :
  In d (AMIMappings b ++ LaunchMappings b) ->
  KmsKeyId d <> "" ->
  Encrypted d = Some false ->
  BlockDevice_Prepare d <> None /\ BlockDevices_Prepare b <> [].
Proof.
  intros Hin Hk He. pose proof (BlockDevice_Prepare_kms d Hk He) as Hp.
  split; [exact Hp|]. unfold BlockDevices_Prepare.
  apply in_app_or in Hin as [Hin|Hin].
  - intro H. apply app_eq_nil in H as [H _].
    exact (prepare_mappings_nonempty _ _ _ Hin Hp H).
  - intro H. apply app_eq_nil in H as [_ H].
    exact (prepare_mappings_nonempty _ _ _ Hin Hp H).
Qed.

Definition kms_dev : BlockDevice :=
  {| DeleteOnTermination := false; DeviceName := "/dev/sdb"; Encrypted := Some false;
     IOPS := 0; NoDevice := false; SnapshotId := ""; VirtualName := "";
     VolumeType := "gp2"; VolumeSize := 10; KmsKeyId := "alias/key";
     OmitFromArtifact := false |}.

Lemma BlockDevices_Prepare_kms_unencrypted_witness :
  BlockDevice_Prepare kms_dev <> None /\
  BlockDevices_Prepare {| AMIMappings := []; LaunchMappings := [kms_dev] |} <> [].
Proof.
  apply (BlockDevices_Prepare_kms_unencrypted
           {| AMIMappings := []; LaunchMappings := [kms_dev] |} kms_dev).
  - simpl. left. reflexivity.
  - discriminate.
  - reflexivity.
Defined.

End BlockDeviceProofs.

(** ** The run configuration *)
Module RunConfigProofs.
Import AmazonCommon.

(** The communicator settings [RunConfig.Prepare] validates, and its
    communicator errors. *)
Definition prepared_comm (env : Env) (c : RunConfig) : CommConfig * list string :=
  CommPrepare env (default_SSHTemporaryKeyPairName env (Comm c)).

(** The error list of [RunConfig.Prepare], rule by rule. *)
Lemma RunConfig_Prepare_errors (env : Env) (c : RunConfig) :
  snd (RunConfig_Prepare env c) =
  (map Collab (snd (prepared_comm env c)) ++
   check_SSHInterface (fst (prepared_comm env c)) ++
   check_SSHKeyPairName (fst (prepared_comm env c)) ++
   check_SourceAmi c ++ check_SourceAmiOwner c ++
   check_InstanceType c ++ check_InstanceTypeBoth c ++
   check_BlockDurationMinutes c ++ check_SpotPriceAuto c ++
   check_SpotPriceAutoProduct c ++ check_SpotTags c ++ check_UserData env c ++
   snd (prepare_SecurityGroup c) ++ snd (prepare_TemporarySGSourceCidrs env c) ++
   snd (prepare_ShutdownBehavior c) ++ check_T2Unlimited c)%list.
Proof.
  unfold RunConfig_Prepare, prepared_comm.
  destruct (CommPrepare env _) as [k ks].
  destruct (prepare_SecurityGroup c) as [[sg sgs] sgErrs].
  destruct (prepare_TemporarySGSourceCidrs env c) as [cidrs cidrErrs].
  destruct (prepare_ShutdownBehavior c) as [sb sbErrs].
  simpl. rewrite <- !app_assoc. reflexivity.
Qed.

Lemma In_check_cidrs (env : Env) (cidrs : list string) (e : error) :
  In e (check_cidrs env cidrs) ->
  exists err, e = Errorf ("Error parsing CIDR in temporary_security_group_source_cidrs: " ++ err).
Proof.
  induction cidrs as [|cidr rest IH]; simpl; [tauto|].
  destruct (ParseCIDR env cidr) as [err|]; simpl; auto.
  intros [<-|H]; eauto.
Qed.

Arguments check_cidrs : simpl never.

Lemma not_in_false (P : Prop) : ~ P -> (P <-> False).
Proof. tauto. Qed.

Ltac unfold_msgs :=
  unfold msg_source_ami, msg_owner, msg_instance_type, msg_instance_type_both,
    msg_block_duration, msg_auto_product, msg_spot_auto, msg_spot_tags,
    msg_user_data, msg_security_group, msg_shutdown, msg_t2_spot in *.

Ltac case_ifs :=
  repeat match goal with
         | H : context [if ?b then _ else _] |- _ => destruct b
         | H : context [match ?l with [] => _ | _ :: _ => _ end] |- _ => destruct l
         end.

(** [~ In (Errorf m) r] for a rule [r] that never reports [m]. *)
Ltac no_msg :=
  let H := fresh "H" in
  intro H;
  unfold check_SSHInterface, check_SSHKeyPairName, check_SourceAmi, check_SourceAmiOwner,
    check_InstanceType, check_InstanceTypeBoth, check_BlockDurationMinutes,
    check_SpotPriceAuto, check_SpotPriceAutoProduct, check_SpotTags, check_UserData,
    prepare_SecurityGroup, prepare_TemporarySGSourceCidrs, prepare_ShutdownBehavior,
    check_T2Unlimited in H;
  case_ifs; simpl in H;
  repeat match goal with
         | H : In _ (map Collab _) |- _ =>
             apply in_map_iff in H; destruct H as [? [H _]]; discriminate H
         | H : In _ (check_cidrs _ _) |- _ =>
             apply In_check_cidrs in H; destruct H as [? H]; unfold_msgs;
             simpl in H; discriminate H
         | H : In _ (_ ++ _) |- _ => apply in_app_or in H
         | H : _ \/ _ |- _ => destruct H as [H|H]
         | H : False |- _ => destruct H
         | H : Errorf _ = Errorf _ |- _ => unfold_msgs; simpl in H; discriminate H
         | H : In _ [] |- _ => destruct H
         end.

(** Turns the membership of [Errorf m] in the error list into its
    membership in the one rule that reports [m]. *)
Ltac only_rule :=
  rewrite RunConfig_Prepare_errors, ?in_app_iff;
  repeat match goal with
         | |- context [In (Errorf ?m) ?l] =>
             rewrite (not_in_false (In (Errorf m) l)) by no_msg
         end.

Definition error_eq_dec (x y : error) : {x = y} + {x <> y}.
Proof. decide equality; apply string_dec. Defined.

(** Decides the goal left by [only_rule] from the one rule reporting the
    message. *)
Ltac own_rule :=
  unfold check_SourceAmi, check_SourceAmiOwner, check_InstanceType, check_InstanceTypeBoth,
    check_BlockDurationMinutes, check_SpotPriceAuto, check_SpotPriceAutoProduct,
    check_SpotTags, check_UserData, prepare_SecurityGroup, prepare_ShutdownBehavior,
    check_T2Unlimited, neq;
  repeat match goal with |- context [if ?b then _ else _] => destruct b end;
  simpl; intuition (try discriminate; try congruence).

(** The independent rules of [RunConfig.Prepare] that report a fixed
    message, each with its condition as the source writes it. *)
Definition independent_rules (c : RunConfig) : list (string * bool) :=
  [ (msg_source_ami, String.eqb (SourceAmi c) "" && AmiFilterOptions_Empty (SourceAmiFilter c));
    (msg_owner, String.eqb (SourceAmi c) "" && AmiFilterOptions_NoOwner (SourceAmiFilter c));
    (msg_instance_type,
      String.eqb (InstanceType c) "" && Nat.eqb (length (SpotInstanceTypes c)) 0);
    (msg_instance_type_both,
      neq (InstanceType c) "" && Nat.ltb 0 (length (SpotInstanceTypes c)));
    (msg_block_duration, negb (Z.eqb (Z.rem (BlockDurationMinutes c) 60) 0));
    (msg_auto_product,
      String.eqb (SpotPrice c) "auto" && String.eqb (SpotPriceAutoProduct c) "");
    (msg_spot_auto, neq (SpotPriceAutoProduct c) "" && neq (SpotPrice c) "auto");
    (msg_spot_tags,
      not_nil (SpotTags c) && (String.eqb (SpotPrice c) "" || String.eqb (SpotPrice c) "0"));
    (msg_user_data, neq (UserData c) "" && neq (UserDataFile c) "");
    (msg_security_group,
      neq (SecurityGroupId c) "" && Nat.ltb 0 (length (SecurityGroupIds c)));
    (msg_shutdown,
      neq (InstanceInitiatedShutdownBehavior c) "" &&
      negb (reShutdownBehavior_MatchString (InstanceInitiatedShutdownBehavior c)));
    (msg_t2_spot, EnableT2Unlimited c && neq (SpotPrice c) "") ].

Lemma independent_rules_reported (env : Env) (c : RunConfig) :
  Forall (fun '(m, b) => In (Errorf m) (snd (RunConfig_Prepare env c)) <-> b = true)
         (independent_rules c).
Proof.
  unfold independent_rules.
  repeat constructor; only_rule; own_rule.
Qed.

(** Record updates used in the statements. *)
Definition set_BlockDurationMinutes (c : RunConfig) (v : Z) : RunConfig :=
  {| BlockDurationMinutes := v; EnableT2Unlimited := EnableT2Unlimited c;
     InstanceInitiatedShutdownBehavior := InstanceInitiatedShutdownBehavior c;
     InstanceType := InstanceType c; RunTags := RunTags c;
     SecurityGroupId := SecurityGroupId c; SecurityGroupIds := SecurityGroupIds c;
     SourceAmi := SourceAmi c; SourceAmiFilter := SourceAmiFilter c;
     SpotInstanceTypes := SpotInstanceTypes c; SpotPrice := SpotPrice c;
     SpotPriceAutoProduct := SpotPriceAutoProduct c; SpotTags := SpotTags c;
     TemporarySGSourceCidrs := TemporarySGSourceCidrs c; UserData := UserData c;
     UserDataFile := UserDataFile c; WindowsPasswordTimeout := WindowsPasswordTimeout c;
     Comm := Comm c |}.

Definition set_SourceAmiFilter (c : RunConfig) (v : AmiFilterOptions) : RunConfig :=
  {| BlockDurationMinutes := BlockDurationMinutes c; EnableT2Unlimited := EnableT2Unlimited c;
     InstanceInitiatedShutdownBehavior := InstanceInitiatedShutdownBehavior c;
     InstanceType := InstanceType c; RunTags := RunTags c;
     SecurityGroupId := SecurityGroupId c; SecurityGroupIds := SecurityGroupIds c;
     SourceAmi := SourceAmi c; SourceAmiFilter := v;
     SpotInstanceTypes := SpotInstanceTypes c; SpotPrice := SpotPrice c;
     SpotPriceAutoProduct := SpotPriceAutoProduct c; SpotTags := SpotTags c;
     TemporarySGSourceCidrs := TemporarySGSourceCidrs c; UserData := UserData c;
     UserDataFile := UserDataFile c; WindowsPasswordTimeout := WindowsPasswordTimeout c;
     Comm := Comm c |}.

Definition empty_filter : AmiFilterOptions :=
  {| Filters := []; Owners := []; MostRecent := false |}.

(** The configuration [RunConfig.Prepare] returns, field by field. *)
Lemma RunConfig_Prepare_config (env : Env) (c : RunConfig) :
  fst (RunConfig_Prepare env c) =
  {| BlockDurationMinutes := BlockDurationMinutes c;
     EnableT2Unlimited := EnableT2Unlimited c;
     InstanceInitiatedShutdownBehavior := fst (prepare_ShutdownBehavior c);
     InstanceType := InstanceType c;
     RunTags := match RunTags c with None => Some [] | Some m => Some m end;
     SecurityGroupId := fst (fst (prepare_SecurityGroup c));
     SecurityGroupIds := snd (fst (prepare_SecurityGroup c));
     SourceAmi := SourceAmi c;
     SourceAmiFilter := SourceAmiFilter c;
     SpotInstanceTypes := SpotInstanceTypes c;
     SpotPrice := SpotPrice c;
     SpotPriceAutoProduct := SpotPriceAutoProduct c;
     SpotTags := SpotTags c;
     TemporarySGSourceCidrs := fst (prepare_TemporarySGSourceCidrs env c);
     UserData := UserData c;
     UserDataFile := UserDataFile c;
     WindowsPasswordTimeout :=
       if Z.eqb (WindowsPasswordTimeout c) 0 then 20 * Minute else WindowsPasswordTimeout c;
     Comm := fst (prepared_comm env c) |}.
Proof.
  unfold RunConfig_Prepare, prepared_comm.
  destruct (CommPrepare env _) as [k ks].
  destruct (prepare_SecurityGroup c) as [[sg sgs] sgErrs].
  destruct (prepare_TemporarySGSourceCidrs env c) as [cidrs cidrErrs].
  destruct (prepare_ShutdownBehavior c) as [sb sbErrs].
  reflexivity.
Qed.

Lemma block_duration_count (env : Env) (c : RunConfig) :
  count_occ error_eq_dec (snd (RunConfig_Prepare env c)) (Errorf msg_block_duration) =
  (if Z.eqb (Z.rem (BlockDurationMinutes c) 60) 0 then 0 else 1)%nat.
Proof.
  rewrite RunConfig_Prepare_errors, !count_occ_app.
  repeat match goal with
         | |- context [count_occ error_eq_dec ?l (Errorf ?m)] =>
             rewrite (proj1 (count_occ_not_In error_eq_dec l (Errorf m))) by no_msg
         end.
  unfold check_BlockDurationMinutes.
  destruct (Z.rem (BlockDurationMinutes c) 60 =? 0); simpl; [reflexivity|].
  destruct (error_eq_dec (Errorf msg_block_duration) (Errorf msg_block_duration));
    [reflexivity|congruence].
Qed.

(** C7: with [block_duration_minutes = 90] the error list holds exactly one
    "must be multiple of 60" error; with [120] it holds none. *)
Theorem block_duration_90_120 (env : Env) (c : RunConfig) :
  count_occ error_eq_dec (snd (RunConfig_Prepare env (set_BlockDurationMinutes c 90)))
    (Errorf msg_block_duration) = 1%nat /\
  count_occ error_eq_dec (snd (RunConfig_Prepare env (set_BlockDurationMinutes c 120)))
    (Errorf msg_block_duration) = 0%nat.
Proof. rewrite !block_duration_count. split; reflexivity. Qed.

Lemma security_group_iff (env : Env) (c : RunConfig) :
  In (Errorf msg_security_group) (snd (RunConfig_Prepare env c)) <->
  SecurityGroupId c <> "" /\ SecurityGroupIds c <> [].
Proof.
  only_rule. unfold prepare_SecurityGroup, neq.
  destruct (String.eqb (SecurityGroupId c) "") eqn:E1.
  - apply String.eqb_eq in E1. simpl. intuition.
  - apply String.eqb_neq in E1. simpl.
    destruct (SecurityGroupIds c); simpl; intuition (try discriminate; try congruence).
Qed.

(** C10: a lone [security_group_id] is moved into [security_group_ids]
    and cleared, with no error for it; the error naming both fields is
    reported exactly when both are set. *)
Theorem security_group_id_moved (env : Env) (c : RunConfig) :
  SecurityGroupId c <> "" ->
  SecurityGroupIds c = [] ->
  SecurityGroupIds (fst (RunConfig_Prepare env c)) = [SecurityGroupId c] /\
  SecurityGroupId (fst (RunConfig_Prepare env c)) = "" /\
  ~ In (Errorf msg_security_group) (snd (RunConfig_Prepare env c)) /\
  (forall c', In (Errorf msg_security_group) (snd (RunConfig_Prepare env c')) <->
              SecurityGroupId c' <> "" /\ SecurityGroupIds c' <> []).
Proof.
  intros Hid Hids. rewrite RunConfig_Prepare_config. simpl.
  unfold prepare_SecurityGroup, neq.
  apply String.eqb_neq in Hid as Hid'. rewrite Hid', Hids. simpl.
  split; [reflexivity|]. split; [reflexivity|]. split.
  - rewrite security_group_iff. tauto.
  - intro c'. apply security_group_iff.
Qed.

Lemma source_ami_iff (env : Env) (c : RunConfig) :
  In (Errorf msg_source_ami) (snd (RunConfig_Prepare env c)) <->
  SourceAmi c = "" /\ AmiFilterOptions_Empty (SourceAmiFilter c) = true.
Proof.
  only_rule. unfold check_SourceAmi.
  destruct (String.eqb (SourceAmi c) "") eqn:E1;
    [apply String.eqb_eq in E1 | apply String.eqb_neq in E1];
    destruct (AmiFilterOptions_Empty (SourceAmiFilter c)); simpl;
    intuition (try discriminate; try congruence).
Qed.

(** C1 (amended): the "must be specified" error is reported exactly when
    both [source_ami] and [source_ami_filter] are empty; there is no rule
    for the two being set together: with [source_ami] set, the error list
    is the one of the same configuration without a filter. *)
Theorem source_ami_filter_rules (env : Env) (c : RunConfig) :
  (In (Errorf msg_source_ami) (snd (RunConfig_Prepare env c)) <->
   SourceAmi c = "" /\ AmiFilterOptions_Empty (SourceAmiFilter c) = true) /\
  (SourceAmi c <> "" ->
   snd (RunConfig_Prepare env c) =
   snd (RunConfig_Prepare env (set_SourceAmiFilter c empty_filter))).
Proof.
  split; [apply source_ami_iff|].
  intro H. rewrite !RunConfig_Prepare_errors.
  unfold check_SourceAmi, check_SourceAmiOwner.
  apply String.eqb_neq in H. simpl. rewrite H. reflexivity.
Qed.

(** A concrete environment: a communicator that accepts its settings
    unchanged, every file present, every CIDR and duration valid. *)
Definition env0 : Env :=
  {| CommPrepare := fun k => (k, []);
     TimeOrderedUUID := "5d1c8e2a-0000-4000-8000-000000000000";
     Stat := fun _ => None;
     ParseCIDR := fun _ => None;
     ParseDuration := fun _ => inl (5 * Minute);
     ToLower := fun s => s;
     InitTimeUnix := 1560000000 |}.

Definition comm0 : CommConfig :=
  {| CommType := "ssh"; SSHKeyPairName := ""; SSHTemporaryKeyPairName := "";
     SSHPrivateKeyFile := ""; SSHPassword := ""; SSHInterface := "";
     SSHAgentAuth := false; WinRMPassword := "" |}.

(** A valid run configuration that sets both [source_ami] and an owned
    [source_ami_filter]. *)
Definition both_sources : RunConfig :=
  {| BlockDurationMinutes := 0; EnableT2Unlimited := false;
     InstanceInitiatedShutdownBehavior := ""; InstanceType := "t2.micro";
     RunTags := None; SecurityGroupId := ""; SecurityGroupIds := [];
     SourceAmi := "ami-0123456789";
     SourceAmiFilter := {| Filters := [("name", "ubuntu/images/*")];
                           Owners := ["099720109477"]; MostRecent := true |};
     SpotInstanceTypes := []; SpotPrice := ""; SpotPriceAutoProduct := "";
     SpotTags := None; TemporarySGSourceCidrs := []; UserData := "";
     UserDataFile := ""; WindowsPasswordTimeout := 0; Comm := comm0 |}.

(** C1 (as stated): with both [source_ami] and [source_ami_filter] set,
    [RunConfig.Prepare] reports no error at all, so no "mutually
    exclusive" one. *)
Lemma source_ami_both_set_no_error :
  SourceAmi both_sources <> "" /\
  AmiFilterOptions_Empty (SourceAmiFilter both_sources) = false /\
  snd (RunConfig_Prepare env0 both_sources) = [].
Proof. split; [discriminate | split; vm_compute; reflexivity]. Qed.

Lemma source_ami_filter_rules_witness :
  (In (Errorf msg_source_ami) (snd (RunConfig_Prepare env0 both_sources)) <->
   SourceAmi both_sources = "" /\
   AmiFilterOptions_Empty (SourceAmiFilter both_sources) = true) /\
  (SourceAmi both_sources <> "" ->
   snd (RunConfig_Prepare env0 both_sources) =
   snd (RunConfig_Prepare env0 (set_SourceAmiFilter both_sources empty_filter))).
Proof. apply (source_ami_filter_rules env0 both_sources). Defined.

(** The configuration with only [security_group_id] set. *)
Definition lone_group : RunConfig :=
  {| BlockDurationMinutes := 60; EnableT2Unlimited := false;
     InstanceInitiatedShutdownBehavior := "terminate"; InstanceType := "t2.micro";
     RunTags := None; SecurityGroupId := "sg-1234"; SecurityGroupIds := [];
     SourceAmi := "ami-0123456789"; SourceAmiFilter := empty_filter;
     SpotInstanceTypes := []; SpotPrice := ""; SpotPriceAutoProduct := "";
     SpotTags := None; TemporarySGSourceCidrs := ["10.0.0.0/8"]; UserData := "";
     UserDataFile := ""; WindowsPasswordTimeout := 0; Comm := comm0 |}.

Lemma security_group_id_moved_witness :
  SecurityGroupIds (fst (RunConfig_Prepare env0 lone_group)) = [SecurityGroupId lone_group] /\
  SecurityGroupId (fst (RunConfig_Prepare env0 lone_group)) = "" /\
  ~ In (Errorf msg_security_group) (snd (RunConfig_Prepare env0 lone_group)) /\
  (forall c', In (Errorf msg_security_group) (snd (RunConfig_Prepare env0 c')) <->
              SecurityGroupId c' <> "" /\ SecurityGroupIds c' <> []).
Proof.
  apply (security_group_id_moved env0 lone_group); [discriminate | reflexivity].
Defined.

(** C2 (as stated): a device that violates both rules of
    [BlockDevice.Prepare] (no name, and a KMS key with encryption off)
    gets one error only; and a configuration setting [user_data] together
    with a missing [user_data_file] gets only the first error of that
    [else if] chain. *)
Lemma one_error_for_two_violations :
  BlockDevices_Prepare
    {| AMIMappings :=
         [{| DeleteOnTermination := false; DeviceName := ""; Encrypted := Some false;
             IOPS := 0; NoDevice := false; SnapshotId := ""; VirtualName := "";
             VolumeType := ""; VolumeSize := 8; KmsKeyId := "alias/key";
             OmitFromArtifact := false |}];
       LaunchMappings := [] |} =
  [Errorf ("AMIMapping: The `device_name` must be specified for every device " ++
           "in the block device mapping.")] /\
  snd (RunConfig_Prepare
         {| CommPrepare := CommPrepare env0; TimeOrderedUUID := TimeOrderedUUID env0;
            Stat := fun _ => Some "stat /missing.sh: no such file or directory";
            ParseCIDR := ParseCIDR env0; ParseDuration := ParseDuration env0;
            ToLower := ToLower env0; InitTimeUnix := InitTimeUnix env0 |}
         {| BlockDurationMinutes := 0; EnableT2Unlimited := false;
            InstanceInitiatedShutdownBehavior := ""; InstanceType := "t2.micro";
            RunTags := None; SecurityGroupId := ""; SecurityGroupIds := [];
            SourceAmi := "ami-0123456789"; SourceAmiFilter := empty_filter;
            SpotInstanceTypes := []; SpotPrice := ""; SpotPriceAutoProduct := "";
            SpotTags := None; TemporarySGSourceCidrs := []; UserData := "#!/bin/sh";
            UserDataFile := "/missing.sh"; WindowsPasswordTimeout := 0; Comm := comm0 |}) =
  [Errorf msg_user_data].
Proof. split; vm_compute; reflexivity. Qed.

Lemma prepare_mappings_length (label : string) (ds : list BlockDevice) :
  length (prepare_mappings label ds) =
  length (filter (fun d => not_nil (BlockDevice_Prepare d)) ds).
Proof.
  induction ds as [|d ds IH]; simpl; auto.
  destruct (BlockDevice_Prepare d); simpl; auto.
Qed.

Ltac str_cases :=
  repeat match goal with
         | |- context [String.eqb ?x ?y] =>
             let E := fresh "E" in
             destruct (String.eqb x y) eqn:E;
             [apply String.eqb_eq in E | apply String.eqb_neq in E]
         end.

(** The [ssh_keypair_name] chain ([if] / [else if]) of the prepared
    communicator: each of its two errors, by its condition. *)
Lemma keypair_chain (env : Env) (c : RunConfig) :
  let k := fst (prepared_comm env c) in
  let errs := snd (RunConfig_Prepare env c) in
  (In (Errorf "ssh_private_key_file must be provided to retrieve the winrm password when using ssh_keypair_name.") errs <->
   SSHKeyPairName k <> "" /\ CommType k = "winrm" /\ WinRMPassword k = "" /\
   SSHPrivateKeyFile k = "") /\
  (In (Errorf "ssh_private_key_file must be provided or ssh_agent_auth enabled when ssh_keypair_name is specified.") errs <->
   SSHKeyPairName k <> "" /\ ~ (CommType k = "winrm" /\ WinRMPassword k = "") /\
   SSHPrivateKeyFile k = "" /\ SSHAgentAuth k = false).
Proof.
  cbv zeta. split; only_rule; unfold check_SSHKeyPairName, neq;
    destruct (SSHAgentAuth (fst (prepared_comm env c))); str_cases; simpl;
    intuition (try discriminate; try congruence).
Qed.

(** The [user_data] chain ([if] / [else if]): each of its two errors, by
    its condition. *)
Lemma user_data_chain (env : Env) (c : RunConfig) :
  let errs := snd (RunConfig_Prepare env c) in
  (In (Errorf msg_user_data) errs <-> UserData c <> "" /\ UserDataFile c <> "") /\
  (In (Errorf ("user_data_file not found: " ++ UserDataFile c)) errs <->
   UserData c = "" /\ UserDataFile c <> "" /\ Stat env (UserDataFile c) <> None).
Proof.
  cbv zeta. split; only_rule; unfold check_UserData, neq, not_nil;
    destruct (Stat env (UserDataFile c)); str_cases; simpl;
    intuition (try discriminate; try congruence).
Qed.

(** [BlockDevice.Prepare] returns the error of the first rule the device
    violates, and nothing when it violates none. *)
Lemma BlockDevice_Prepare_first (d : BlockDevice) :
  (BlockDevice_Prepare d =
     Some (Errorf ("The `device_name` must be specified " ++
                   "for every device in the block device mapping.")) <->
   DeviceName d = "") /\
  (BlockDevice_Prepare d =
     Some (Errorf ("The device " ++ DeviceName d ++ ", must also have `encrypted: " ++
                   "true` when setting a kms_key_id.")) <->
   DeviceName d <> "" /\ KmsKeyId d <> "" /\ Encrypted d = Some false) /\
  (BlockDevice_Prepare d = None <->
   DeviceName d <> "" /\ ~ (KmsKeyId d <> "" /\ Encrypted d = Some false)).
Proof.
  unfold BlockDevice_Prepare.
  destruct (Encrypted d) as [[|]|]; str_cases; simpl;
    intuition (try discriminate; try congruence).
Qed.

(** C2 (amended): [RunConfig.Prepare] evaluates each of its independent
    rules whatever the others report: each fixed-message error is present
    exactly when its rule's condition holds. Its two [else if] chains
    report only their first error: the [ssh_keypair_name] chain of the
    prepared communicator (the winrm error, else the
    [ssh_private_key_file] / [ssh_agent_auth] error) and the [user_data]
    chain (both fields set, else a missing [user_data_file]); neither
    chain reports both of its errors. [BlockDevices.Prepare] reports one
    error per failing device over both lists; [BlockDevice.Prepare]
    returns the error of the first rule a device violates ([device_name],
    then [kms_key_id] with [encrypted] false), and none when it violates
    none. *)
Theorem prepare_reports_each_rule :
  (forall env c,
     Forall (fun '(m, b) => In (Errorf m) (snd (RunConfig_Prepare env c)) <-> b = true)
            (independent_rules c)) /\
  (forall env c,
     let k := fst (prepared_comm env c) in
     let errs := snd (RunConfig_Prepare env c) in
     let winrm_err := Errorf "ssh_private_key_file must be provided to retrieve the winrm password when using ssh_keypair_name." in
     let key_err := Errorf "ssh_private_key_file must be provided or ssh_agent_auth enabled when ssh_keypair_name is specified." in
     (In winrm_err errs <->
      SSHKeyPairName k <> "" /\ CommType k = "winrm" /\ WinRMPassword k = "" /\
      SSHPrivateKeyFile k = "") /\
     (In key_err errs <->
      SSHKeyPairName k <> "" /\ ~ (CommType k = "winrm" /\ WinRMPassword k = "") /\
      SSHPrivateKeyFile k = "" /\ SSHAgentAuth k = false) /\
     ~ (In winrm_err errs /\ In key_err errs)) /\
  (forall env c,
     let errs := snd (RunConfig_Prepare env c) in
     let missing_err := Errorf ("user_data_file not found: " ++ UserDataFile c) in
     (In (Errorf msg_user_data) errs <-> UserData c <> "" /\ UserDataFile c <> "") /\
     (In missing_err errs <->
      UserData c = "" /\ UserDataFile c <> "" /\ Stat env (UserDataFile c) <> None) /\
     ~ (In (Errorf msg_user_data) errs /\ In missing_err errs)) /\
  (forall b,
     length (BlockDevices_Prepare b) =
     length (filter (fun d => not_nil (BlockDevice_Prepare d))
                    (AMIMappings b ++ LaunchMappings b))) /\
  (forall d,
     (BlockDevice_Prepare d =
        Some (Errorf ("The `device_name` must be specified " ++
                      "for every device in the block device mapping.")) <->
      DeviceName d = "") /\
     (BlockDevice_Prepare d =
        Some (Errorf ("The device " ++ DeviceName d ++ ", must also have `encrypted: " ++
                      "true` when setting a kms_key_id.")) <->
      DeviceName d <> "" /\ KmsKeyId d <> "" /\ Encrypted d = Some false) /\
     (BlockDevice_Prepare d = None <->
      DeviceName d <> "" /\ ~ (KmsKeyId d <> "" /\ Encrypted d = Some false))).
Proof.
  split; [exact independent_rules_reported|]. split; [|split; [|split]].
  - intros env c. cbv zeta. destruct (keypair_chain env c) as [H1 H2].
    rewrite H1, H2. tauto.
  - intros env c. cbv zeta. destruct (user_data_chain env c) as [H1 H2].
    rewrite H1, H2. split; [tauto|]. split; [tauto|]. intros [[Hu _] [Hu' _]]. contradiction.
  - intro b. unfold BlockDevices_Prepare.
    rewrite length_app, filter_app, length_app, !prepare_mappings_length. reflexivity.
  - exact BlockDevice_Prepare_first.
Qed.

(** A device with no name that also sets a KMS key with encryption off. *)
Definition nameless_kms_device : BlockDevice :=
  {| DeleteOnTermination := false; DeviceName := ""; Encrypted := Some false;
     IOPS := 0; NoDevice := false; SnapshotId := ""; VirtualName := "";
     VolumeType := ""; VolumeSize := 8; KmsKeyId := "alias/key";
     OmitFromArtifact := false |}.

(** An environment in which every file is missing. *)
Definition missing_file_env : Env :=
  {| CommPrepare := CommPrepare env0; TimeOrderedUUID := TimeOrderedUUID env0;
     Stat := fun f => Some ("stat " ++ f ++ ": no such file or directory");
     ParseCIDR := ParseCIDR env0; ParseDuration := ParseDuration env0;
     ToLower := ToLower env0; InitTimeUnix := InitTimeUnix env0 |}.

(** A configuration with [user_data] and a [user_data_file] set, and an
    [ssh_keypair_name] for winrm with neither password nor key file. *)
Definition both_chains : RunConfig :=
  {| BlockDurationMinutes := 0; EnableT2Unlimited := false;
     InstanceInitiatedShutdownBehavior := ""; InstanceType := "t2.micro";
     RunTags := None; SecurityGroupId := ""; SecurityGroupIds := [];
     SourceAmi := "ami-0123456789"; SourceAmiFilter := empty_filter;
     SpotInstanceTypes := []; SpotPrice := ""; SpotPriceAutoProduct := "";
     SpotTags := None; TemporarySGSourceCidrs := []; UserData := "#!/bin/sh";
     UserDataFile := "/missing.sh"; WindowsPasswordTimeout := 0;
     Comm := {| CommType := "winrm"; SSHKeyPairName := "my-key";
                SSHTemporaryKeyPairName := ""; SSHPrivateKeyFile := "";
                SSHPassword := ""; SSHInterface := ""; SSHAgentAuth := false;
                WinRMPassword := "" |} |}.

Lemma prepare_reports_each_rule_witness :
  In (Errorf "ssh_private_key_file must be provided to retrieve the winrm password when using ssh_keypair_name.")
     (snd (RunConfig_Prepare missing_file_env both_chains)) /\
  ~ In (Errorf "ssh_private_key_file must be provided or ssh_agent_auth enabled when ssh_keypair_name is specified.")
     (snd (RunConfig_Prepare missing_file_env both_chains)) /\
  In (Errorf msg_user_data) (snd (RunConfig_Prepare missing_file_env both_chains)) /\
  ~ In (Errorf ("user_data_file not found: " ++ UserDataFile both_chains))
     (snd (RunConfig_Prepare missing_file_env both_chains)) /\
  BlockDevice_Prepare nameless_kms_device =
    Some (Errorf ("The `device_name` must be specified " ++
                  "for every device in the block device mapping.")) /\
  BlockDevice_Prepare nameless_kms_device <>
    Some (Errorf ("The device " ++ DeviceName nameless_kms_device ++
                  ", must also have `encrypted: " ++ "true` when setting a kms_key_id.")).
Proof.
  destruct prepare_reports_each_rule as [_ [Hkp [Hud [_ Hbd]]]].
  destruct (Hkp missing_file_env both_chains) as [H1 [H2 _]].
  destruct (Hud missing_file_env both_chains) as [H3 [H4 _]].
  destruct (Hbd nameless_kms_device) as [H5 [H6 _]].
  split; [apply H1; repeat split; vm_compute; first [discriminate | reflexivity]|].
  split; [rewrite H2; intros [_ [Hw _]]; apply Hw; split; vm_compute; reflexivity|].
  split; [apply H3; split; discriminate|].
  split; [rewrite H4; intros [Hu _]; discriminate Hu|].
  split; [apply H5; reflexivity|].
  rewrite H6. intros [Hn _]. apply Hn. reflexivity.
Defined.

End RunConfigProofs.

(** ** Idempotence of the Prepare methods *)
Module IdempotenceProofs.
Import AmazonCommon RunConfigProofs.

Lemma default_has_credentials (env : Env) (k : CommConfig) :
  no_ssh_credentials (default_SSHTemporaryKeyPairName env k) = false.
Proof.
  unfold default_SSHTemporaryKeyPairName.
  destruct (no_ssh_credentials k) eqn:E; [|exact E].
  unfold no_ssh_credentials. simpl.
  destruct (String.eqb (SSHKeyPairName k) ""); reflexivity.
Qed.

Lemma default_keeps (env : Env) (k : CommConfig) :
  no_ssh_credentials k = false -> default_SSHTemporaryKeyPairName env k = k.
Proof. intro H. unfold default_SSHTemporaryKeyPairName. rewrite H. reflexivity. Qed.

Lemma shutdown_behavior_stable (c c2 : RunConfig) :
  snd (prepare_ShutdownBehavior c) = [] ->
  InstanceInitiatedShutdownBehavior c2 = fst (prepare_ShutdownBehavior c) ->
  prepare_ShutdownBehavior c2 = (fst (prepare_ShutdownBehavior c), []).
Proof.
  unfold prepare_ShutdownBehavior, reShutdownBehavior_MatchString.
  intros Herr Hv. rewrite Hv.
  destruct (String.eqb (InstanceInitiatedShutdownBehavior c) "") eqn:E1; [reflexivity|].
  destruct (String.eqb (InstanceInitiatedShutdownBehavior c) "stop"
            || String.eqb (InstanceInitiatedShutdownBehavior c) "terminate") eqn:E2;
    simpl in *; [|discriminate].
  rewrite E1, E2. reflexivity.
Qed.

Lemma security_group_stable (c c2 : RunConfig) :
  snd (prepare_SecurityGroup c) = [] ->
  SecurityGroupId c2 = fst (fst (prepare_SecurityGroup c)) ->
  SecurityGroupIds c2 = snd (fst (prepare_SecurityGroup c)) ->
  prepare_SecurityGroup c2 = (fst (prepare_SecurityGroup c), []).
Proof.
  unfold prepare_SecurityGroup, neq. intros Herr Hid Hids. rewrite Hid, Hids.
  destruct (String.eqb (SecurityGroupId c) "") eqn:E1; simpl in *.
  - rewrite E1. reflexivity.
  - destruct (Nat.ltb 0 (length (SecurityGroupIds c))); simpl in *; [discriminate|].
    reflexivity.
Qed.

Lemma cidrs_stable (env : Env) (c c2 : RunConfig) :
  ParseCIDR env "0.0.0.0/0" = None ->
  snd (prepare_TemporarySGSourceCidrs env c) = [] ->
  TemporarySGSourceCidrs c2 = fst (prepare_TemporarySGSourceCidrs env c) ->
  prepare_TemporarySGSourceCidrs env c2 = (fst (prepare_TemporarySGSourceCidrs env c), []).
Proof.
  unfold prepare_TemporarySGSourceCidrs. intros Hd Herr Hv. rewrite Hv.
  destruct (TemporarySGSourceCidrs c) as [|cidr rest]; simpl in *.
  - unfold check_cidrs. rewrite Hd. reflexivity.
  - rewrite Herr. reflexivity.
Qed.

Ltac split_nil H :=
  repeat match type of H with
         | (_ ++ _)%list = [] =>
             let H1 := fresh "Hnil" in apply app_eq_nil in H as [H1 H]
         end.

Lemma RunConfig_Prepare_idempotent (env : Env) (c c' : RunConfig) :
  (forall k k' es, CommPrepare env k = (k', es) ->
                   no_ssh_credentials k = false -> no_ssh_credentials k' = false) ->
  (forall k k', CommPrepare env k = (k', []) -> CommPrepare env k' = (k', [])) ->
  ParseCIDR env "0.0.0.0/0" = None ->
  RunConfig_Prepare env c = (c', []) ->
  RunConfig_Prepare env c' = (c', []).
Proof.
  intros Hcred Hidem Hcidr H.
  pose proof (RunConfig_Prepare_errors env c) as He. rewrite H in He. simpl in He.
  pose proof (RunConfig_Prepare_config env c) as Hc. rewrite H in Hc. simpl in Hc.
  destruct (prepared_comm env c) as [k ks] eqn:Hk. simpl in He, Hc.
  symmetry in He. split_nil He.
  destruct ks as [|ks0 ks]; [|discriminate Hnil].
  unfold prepared_comm in Hk.
  pose proof (Hidem _ _ Hk) as Hk2.
  pose proof (Hcred _ _ _ Hk (default_has_credentials env _)) as Hnc.
  assert (Hpc : prepared_comm env c' = (k, [])).
  { unfold prepared_comm. rewrite Hc. simpl. rewrite default_keeps by exact Hnc. exact Hk2. }
  assert (Hsb : prepare_ShutdownBehavior c' = (fst (prepare_ShutdownBehavior c), []))
    by (apply shutdown_behavior_stable; [assumption | rewrite Hc; reflexivity]).
  assert (Hsg : prepare_SecurityGroup c' = (fst (prepare_SecurityGroup c), []))
    by (apply security_group_stable; [assumption | rewrite Hc; reflexivity
                                      | rewrite Hc; reflexivity]).
  assert (Hcd : prepare_TemporarySGSourceCidrs env c' =
                (fst (prepare_TemporarySGSourceCidrs env c), []))
    by (apply cidrs_stable; [assumption | assumption | rewrite Hc; reflexivity]).
  rewrite (surjective_pairing (RunConfig_Prepare env c')). f_equal.
  - rewrite RunConfig_Prepare_config, Hpc, Hsb, Hsg, Hcd, Hc. simpl. f_equal.
    + destruct (RunTags c); reflexivity.
    + destruct (WindowsPasswordTimeout c =? 0) eqn:E; [reflexivity|]. rewrite E. reflexivity.
  - rewrite RunConfig_Prepare_errors, Hpc, Hsb, Hsg, Hcd. simpl.
    assert (Hrules :
      check_SourceAmi c' = check_SourceAmi c /\ check_SourceAmiOwner c' = check_SourceAmiOwner c /\
      check_InstanceType c' = check_InstanceType c /\
      check_InstanceTypeBoth c' = check_InstanceTypeBoth c /\
      check_BlockDurationMinutes c' = check_BlockDurationMinutes c /\
      check_SpotPriceAuto c' = check_SpotPriceAuto c /\
      check_SpotPriceAutoProduct c' = check_SpotPriceAutoProduct c /\
      check_SpotTags c' = check_SpotTags c /\ check_UserData env c' = check_UserData env c /\
      check_T2Unlimited c' = check_T2Unlimited c)
      by (rewrite Hc; repeat split).
    destruct Hrules as (R1 & R2 & R3 & R4 & R5 & R6 & R7 & R8 & R9 & R10).
    rewrite R1, R2, R3, R4, R5, R6, R7, R8, R9, R10.
    repeat match goal with
           | Hn : ?x = [] |- context [?x] => rewrite Hn
           end.
    reflexivity.
Qed.

Lemma ShutdownConfig_Prepare_idempotent (env : Env) (s s' : VmwareCommon.ShutdownConfig) :
  VmwareCommon.ShutdownConfig_Prepare env s = (s', []) ->
  VmwareCommon.ShutdownConfig_Prepare env s' = (s', []).
Proof.
  unfold VmwareCommon.ShutdownConfig_Prepare.
  destruct (String.eqb (VmwareCommon.RawShutdownTimeout s) "") eqn:E;
    destruct (ParseDuration env _) as [d|err] eqn:Hp; intro H; inversion H; subst; simpl.
  - rewrite Hp. reflexivity.
  - rewrite E, Hp. reflexivity.
Qed.

(** C8: resolution is idempotent: when [RunConfig.Prepare] succeeds with
    no error, running it again on the configuration it returned returns
    that configuration unchanged and no error, provided the communicator's
    own [Prepare] is idempotent in the same sense and keeps configured SSH
    credentials configured, and [net.ParseCIDR] accepts its default
    "0.0.0.0/0"; and the same holds for [ShutdownConfig.Prepare]. *)
Theorem Prepare_idempotent :
  (forall (env : Env) (c c' : RunConfig),
     (forall k k' es, CommPrepare env k = (k', es) ->
                      no_ssh_credentials k = false -> no_ssh_credentials k' = false) ->
     (forall k k', CommPrepare env k = (k', []) -> CommPrepare env k' = (k', [])) ->
     ParseCIDR env "0.0.0.0/0" = None ->
     RunConfig_Prepare env c = (c', []) ->
     RunConfig_Prepare env c' = (c', [])) /\
  (forall (env : Env) (s s' : VmwareCommon.ShutdownConfig),
     VmwareCommon.ShutdownConfig_Prepare env s = (s', []) ->
     VmwareCommon.ShutdownConfig_Prepare env s' = (s', [])).
Proof.
  split; [exact RunConfig_Prepare_idempotent | exact ShutdownConfig_Prepare_idempotent].
Qed.

Definition shutdown0 : VmwareCommon.ShutdownConfig :=
  {| VmwareCommon.ShutdownCommand := "sudo shutdown -P now";
     VmwareCommon.RawShutdownTimeout := "";
     VmwareCommon.ShutdownTimeout := 0 |}.

Lemma Prepare_idempotent_witness :
  RunConfig_Prepare env0 (fst (RunConfig_Prepare env0 lone_group)) =
  (fst (RunConfig_Prepare env0 lone_group), []) /\
  VmwareCommon.ShutdownConfig_Prepare env0
    (fst (VmwareCommon.ShutdownConfig_Prepare env0
            shutdown0)) =
  (fst (VmwareCommon.ShutdownConfig_Prepare env0
          shutdown0), []).
Proof.
  split.
  - apply (proj1 Prepare_idempotent env0 lone_group).
    + intros k k' es Hq. injection Hq as -> _. trivial.
    + intros k k' Hq. injection Hq as ->. reflexivity.
    + reflexivity.
    + vm_compute. reflexivity.
  - apply (proj2 Prepare_idempotent env0 shutdown0). vm_compute. reflexivity.
Defined.

End IdempotenceProofs.

(** ** The virtualbox-ovf source file check *)
Module OvfProofs.
Import MultiError VirtualboxOvf.

Lemma set_nth_length {A} (n : nat) (x : A) (l : list A) :
  length (set_nth n x l) = length l.
Proof. revert n; induction l as [|y l IH]; intros [|n]; simpl; auto. Qed.

Lemma nth_set_nth_same {A} (n : nat) (x d : A) (l : list A) :
  (n < length l)%nat -> nth n (set_nth n x l) d = x.
Proof.
  revert n; induction l as [|y l IH]; intros [|n] Hn; simpl in *; try lia; auto.
  apply IH. lia.
Qed.

(** A non-nil [*MultiError] that points into the heap. *)
Definition valid (st : heap * ptr) : Prop :=
  exists l, snd st = Some l /\ (l < length (fst st))%nat.

Lemma MultiErrorAppend_in_place (h : heap) (l : nat) (es : list error) :
  (l < length h)%nat ->
  MultiErrorAppend h (Some l) es = (set_nth l (Errors h l ++ es)%list h, Some l) /\
  length (set_nth l (Errors h l ++ es)%list h) = length h /\
  Errors (set_nth l (Errors h l ++ es)%list h) l = (Errors h l ++ es)%list.
Proof.
  intro Hl. split; [reflexivity|]. split; [apply set_nth_length|].
  unfold Errors at 1. apply nth_set_nth_same. exact Hl.
Qed.

Lemma append_step_valid (st : heap * ptr) (es : list error) :
  valid st -> valid (append_step st es).
Proof.
  destruct st as [h p]. intros (l & Hp & Hl). simpl in Hp, Hl. subst p.
  destruct (MultiErrorAppend_in_place h l es Hl) as (E & Hlen & _).
  unfold append_step. rewrite E. exists l. simpl. rewrite Hlen. auto.
Qed.

Lemma fold_append_valid (ess : list (list error)) (st : heap * ptr) :
  valid st -> valid (fold_left append_step ess st).
Proof.
  revert st; induction ess as [|es ess IH]; intros st V; simpl; auto.
  apply IH, append_step_valid, V.
Qed.

(** After the thirteen sub-configuration lines, [errs] is a non-nil
    pointer into the heap, even when no sub-configuration reported an
    error. *)
Lemma append_components_valid (r : SubConfigErrors) :
  valid (append_components [] None r).
Proof.
  unfold append_components.
  match goal with
  | |- valid (fold_left ?f (?x :: ?xs) ?st) => change (valid (fold_left f xs (f st x)))
  end.
  apply fold_append_valid. exists 0%nat. simpl. auto.
Qed.

Definition msg_missing_source (path err : string) : string :=
  "Source file '" ++ path ++ "' needs to exist at time of config validation! " ++ err.

(** C4: when [source_path] names a file that [os.Stat] cannot find,
    [NewConfig] fails, and its error set holds the message naming the
    missing source file: the [MultiErrorAppend] whose result is discarded
    still appends to the [*MultiError] that [errs] points to. *)
Theorem NewConfig_missing_source_reported
    (env : Env) (components : Config -> SubConfigErrors) (c0 : Config) (err : string) :
  Stat env (SourcePath c0) = Some err ->
  exists warnings errs,
    NewConfig env components c0 = (None, warnings, Some errs) /\
    In (Errorf (msg_missing_source (SourcePath c0) err)) errs.
Proof.
  intro Hs. unfold NewConfig.
  destruct (append_components [] None (components (defaults env c0))) as [h0 p0] eqn:Ha.
  pose proof (append_components_valid (components (defaults env c0))) as V.
  rewrite Ha in V. destruct V as (l & Hp & Hl). simpl in Hp, Hl. subst p0.
  change (SourcePath (lower_checksums env (defaults env c0))) with (SourcePath c0).
  (* the source_path required check *)
  destruct (if String.eqb (SourcePath c0) "" then _ else _) as [h1 p1] eqn:E1.
  assert (p1 = Some l /\ (l < length h1)%nat) as [-> Hl1].
  { destruct (String.eqb (SourcePath c0) "").
    - destruct (MultiErrorAppend_in_place h0 l [Errorf "source_path is required"] Hl)
        as (E & Hlen & _).
      rewrite E in E1. injection E1 as <- <-. rewrite Hlen. auto.
    - injection E1 as <- <-. auto. }
  cbv beta iota. rewrite Hs.
  (* the os.Stat check: the returned pointer is dropped, the heap is not *)
  destruct (MultiErrorAppend_in_place h1 l
              [Errorf (msg_missing_source (SourcePath c0) err)] Hl1) as (E2 & Hlen2 & Herr2).
  unfold msg_missing_source in E2, Herr2. rewrite E2. cbn [fst].
  set (h2 := set_nth l _ h1) in *.
  assert (Hin2 : In (Errorf (msg_missing_source (SourcePath c0) err)) (Errors h2 l))
    by (rewrite Herr2; apply in_or_app; simpl; auto).
  assert (Hl2 : (l < length h2)%nat) by (rewrite Hlen2; exact Hl1).
  (* the guest_additions_mode check *)
  destruct (if negb (existsb _ validModes) then _ else _) as [h3 p3] eqn:E3.
  assert (p3 = Some l /\ In (Errorf (msg_missing_source (SourcePath c0) err)) (Errors h3 l))
    as [-> Hin3].
  { destruct (negb _).
    - destruct (MultiErrorAppend_in_place h2 l
                  [Errorf "guest_additions_mode is invalid. Must be one of: [disable attach upload]"]
                  Hl2) as (E & _ & Herr).
      rewrite E in E3. injection E3 as <- <-. rewrite Herr. split; [reflexivity|].
      apply in_or_app. auto.
    - injection E3 as <- <-. auto. }
  destruct (Errors h3 l) as [|e es] eqn:Eh3; [destruct Hin3|].
  simpl. eexists; eexists; split; [reflexivity|]. exact Hin3.
Qed.

Definition no_sub_errors : SubConfigErrors :=
  {| ExportConfigErrs := []; ExportOptsErrs := []; FloppyConfigErrs := [];
     HTTPConfigErrs := []; OutputConfigErrs := []; RunConfigErrs := [];
     ShutdownConfigErrs := []; SSHConfigErrs := []; VBoxManageConfigErrs := [];
     VBoxManagePostConfigErrs := []; VBoxVersionConfigErrs := []; BootConfigErrs := [];
     GuestAdditionsConfigErrs := [] |}.

Definition missing_env : Env :=
  {| CommPrepare := fun k => (k, []);
     TimeOrderedUUID := "5d1c8e2a-0000-4000-8000-000000000000";
     Stat := fun p => Some ("stat " ++ p ++ ": no such file or directory");
     ParseCIDR := fun _ => None;
     ParseDuration := fun _ => inl 0;
     ToLower := fun s => s;
     InitTimeUnix := 1560000000 |}.

Definition ovf0 : Config :=
  {| PackerBuildName := "virtualbox-ovf"; ShutdownCommand := "echo packer | sudo -S shutdown -P now";
     Checksum := ""; ChecksumType := "none"; GuestAdditionsMode := "";
     GuestAdditionsPath := ""; GuestAdditionsInterface := ""; GuestAdditionsSHA256 := "";
     ImportFlags := []; ImportOpts := ""; SourcePath := "/tmp/missing.ovf"; VMName := "" |}.

Example NewConfig_missing_source_example :
  NewConfig missing_env (fun _ => no_sub_errors) ovf0 =
  (None, [],
   Some [Errorf ("Source file '/tmp/missing.ovf' needs to exist at time of config " ++
                 "validation! stat /tmp/missing.ovf: no such file or directory")]).
Proof. vm_compute. reflexivity. Qed.

Lemma NewConfig_missing_source_reported_witness :
  exists warnings errs,
    NewConfig missing_env (fun _ => no_sub_errors) ovf0 = (None, warnings, Some errs) /\
    In (Errorf (msg_missing_source (SourcePath ovf0)
                  "stat /tmp/missing.ovf: no such file or directory")) errs.
Proof.
  apply (NewConfig_missing_source_reported missing_env (fun _ => no_sub_errors) ovf0).
  reflexivity.
Defined.

End OvfProofs.


(** ** Launch-device omissions *)
Module OmissionProofs.
Import AmazonCommon.

Lemma map_get_set (k : string) (v : bool) (m : map_sb) (n : string) :
  map_get (map_set k v m) n = if String.eqb k n then Some v else map_get m n.
Proof.
  induction m as [|[k' v'] m IH]; simpl; [destruct (String.eqb k n); reflexivity|].
  destruct (String.eqb k' k) eqn:E.
  - apply String.eqb_eq in E. subst k'. simpl. destruct (String.eqb k n); reflexivity.
  - simpl. rewrite IH. destruct (String.eqb k' n) eqn:E2; [|reflexivity].
    apply String.eqb_eq in E2. subst n. rewrite String.eqb_sym, E. reflexivity.
Qed.

Lemma find_app' {A} (p : A -> bool) (l1 l2 : list A) :
  find p (l1 ++ l2) = match find p l1 with Some x => Some x | None => find p l2 end.
Proof.
  induction l1 as [|x l1 IH]; simpl; [reflexivity|]. destruct (p x); auto.
Qed.

Lemma fold_omit_step (ds : list BlockDevice) (m : map_sb) (n : string) :
  map_get (fold_left omit_step ds m) n =
  match find (fun d => String.eqb (DeviceName d) n) (rev ds) with
  | Some d => Some (OmitFromArtifact d)
  | None => map_get m n
  end.
Proof.
  revert m; induction ds as [|d ds IH]; intro m; simpl; [reflexivity|].
  rewrite IH, find_app'. simpl. unfold omit_step. rewrite map_get_set.
  destruct (find _ (rev ds)); [reflexivity|].
  destruct (String.eqb (DeviceName d) n); reflexivity.
Qed.

(** [GetOmissions] holds, for each device name of the launch mappings, the
    [omit_from_artifact] flag of the last launch mapping with that name (a
    later duplicate overrides an earlier one), and no entry for any other
    name, in particular none for a name given only among the AMI mappings. *)
Theorem GetOmissions_lookup (b : BlockDevices) (n : string) :
  map_get (GetOmissions b) n =
  option_map OmitFromArtifact
    (find (fun d => String.eqb (DeviceName d) n) (rev (LaunchMappings b))).
Proof.
  unfold GetOmissions. rewrite fold_omit_step.
  destruct (find _ _); reflexivity.
Qed.

Lemma buildBlockDevice_name (d : BlockDevice) :
  EC2.DeviceName (buildBlockDevice d) = Some (DeviceName d).
Proof.
  unfold buildBlockDevice. destruct (NoDevice d); [reflexivity|].
  destruct (negb (String.eqb (VirtualName d) "")); reflexivity.
Qed.

Lemma find_some_of_in {A} (p : A -> bool) (l : list A) (x : A) :
  In x l -> p x = true -> find p l <> None.
Proof.
  induction l as [|y l IH]; simpl; [tauto|].
  intros [->|Hin] Hp; [rewrite Hp; discriminate|].
  destruct (p y); [discriminate|auto].
Qed.

(** [BuildLaunchDevices] emits one mapping per launch mapping, and the
    device name of every mapping it emits has an entry in [GetOmissions],
    so a caller can look up the omission flag of each launched device. *)
Theorem BuildLaunchDevices_omissions (b : BlockDevices) :
  length (BuildLaunchDevices b) = length (LaunchMappings b) /\
  (forall m, In m (BuildLaunchDevices b) ->
             exists n, EC2.DeviceName m = Some n /\ map_get (GetOmissions b) n <> None).
Proof.
  unfold BuildLaunchDevices. rewrite BlockDeviceProofs.buildBlockDevices_map.
  split; [apply length_map|].
  intros m Hm. apply in_map_iff in Hm as [d [<- Hd]].
  exists (DeviceName d). split; [apply buildBlockDevice_name|].
  unfold GetOmissions. rewrite fold_omit_step.
  destruct (find _ _) eqn:E; [discriminate|].
  exfalso. revert E. apply (find_some_of_in _ _ d).
  - apply (in_rev (LaunchMappings b)). exact Hd.
  - apply String.eqb_refl.
Qed.

End OmissionProofs.


(** ** Further rules of RunConfig.Prepare *)
Module RunConfigRuleProofs.
Import AmazonCommon RunConfigProofs.

Ltac eqb_cases :=
  repeat match goal with
         | |- context [String.eqb ?x ?y] =>
             let E := fresh "E" in
             destruct (String.eqb x y) eqn:E;
             [apply String.eqb_eq in E | apply String.eqb_neq in E]
         end.

(** The [spot_tags] error is reported exactly when [spot_tags] is set
    (a non-nil map, even an empty one) on a configuration that is not a
    spot instance in the sense of [IsSpotInstance]. *)
Theorem spot_tags_iff_not_spot (env : Env) (c : RunConfig) :
  In (Errorf msg_spot_tags) (snd (RunConfig_Prepare env c)) <->
  SpotTags c <> None /\ IsSpotInstance c = false.
Proof.
  only_rule. unfold check_SpotTags, IsSpotInstance, neq, not_nil.
  destruct (SpotTags c); eqb_cases; simpl; intuition (try discriminate; try congruence).
Qed.

(** With [enable_t2_unlimited], the error against spot instances is
    reported whenever [spot_price] is set, so also for [spot_price = "0"],
    which [IsSpotInstance] does not count as a spot instance. *)
Theorem t2_spot_error_iff (env : Env) (c : RunConfig) :
  In (Errorf msg_t2_spot) (snd (RunConfig_Prepare env c)) <->
  EnableT2Unlimited c = true /\ (IsSpotInstance c = true \/ SpotPrice c = "0").
Proof.
  only_rule. unfold check_T2Unlimited, IsSpotInstance, neq.
  destruct (EnableT2Unlimited c); [|simpl; intuition discriminate].
  cbv zeta. destruct (IndexByte (InstanceType c) "." =? -1);
    eqb_cases; subst; simpl; unfold msg_t2_spot;
    intuition (try discriminate; try congruence).
Qed.

(** No instance-type error is reported exactly when one and only one of
    [instance_type] and [spot_instance_types] is given. *)
Theorem instance_type_exactly_one (env : Env) (c : RunConfig) :
  (~ In (Errorf msg_instance_type) (snd (RunConfig_Prepare env c)) /\
   ~ In (Errorf msg_instance_type_both) (snd (RunConfig_Prepare env c))) <->
  (InstanceType c = "" <-> SpotInstanceTypes c <> []).
Proof.
  only_rule. unfold check_InstanceType, check_InstanceTypeBoth, neq.
  destruct (SpotInstanceTypes c); eqb_cases; simpl;
    intuition (try discriminate; try congruence).
Qed.

(** No error about the automatic spot price is reported exactly when
    [spot_price] is "auto" if and only if [spot_price_auto_product] is set. *)
Theorem spot_price_auto_consistent (env : Env) (c : RunConfig) :
  (~ In (Errorf msg_auto_product) (snd (RunConfig_Prepare env c)) /\
   ~ In (Errorf msg_spot_auto) (snd (RunConfig_Prepare env c))) <->
  (SpotPrice c = "auto" <-> SpotPriceAutoProduct c <> "").
Proof.
  only_rule. unfold check_SpotPriceAuto, check_SpotPriceAutoProduct, neq.
  eqb_cases; simpl; intuition (try discriminate; try congruence).
Qed.

(** The block-duration error is reported exactly when
    [block_duration_minutes] is not a multiple of 60: zero and negative
    multiples of 60 are accepted, and there is no upper bound. *)
Theorem block_duration_multiple (env : Env) (c : RunConfig) :
  In (Errorf msg_block_duration) (snd (RunConfig_Prepare env c)) <->
  ~ (60 | BlockDurationMinutes c).
Proof.
  only_rule. unfold check_BlockDurationMinutes.
  rewrite <- (Z.rem_divide (BlockDurationMinutes c) 60) by lia.
  destruct (Z.rem (BlockDurationMinutes c) 60 =? 0) eqn:E;
    [apply Z.eqb_eq in E | apply Z.eqb_neq in E]; simpl;
    intuition (try discriminate; try congruence).
Qed.

(** Without [source_ami], a [source_ami_filter] must name an owner: the
    owner error is reported exactly when [source_ami] is empty and the
    filter has no owner, even when the filter has filters. *)
Theorem source_ami_owner_required (env : Env) (c : RunConfig) :
  In (Errorf msg_owner) (snd (RunConfig_Prepare env c)) <->
  SourceAmi c = "" /\ Owners (SourceAmiFilter c) = [].
Proof.
  only_rule. unfold check_SourceAmiOwner, AmiFilterOptions_NoOwner.
  destruct (Owners (SourceAmiFilter c)); eqb_cases; simpl;
    intuition (try discriminate; try congruence).
Qed.

(** The existence of [user_data_file] is checked only when [user_data] is
    empty: the "not found" error is reported exactly when [user_data] is
    empty, [user_data_file] is set and [os.Stat] fails on it. *)
Theorem user_data_file_checked (env : Env) (c : RunConfig) :
  In (Errorf ("user_data_file not found: " ++ UserDataFile c)) (snd (RunConfig_Prepare env c)) <->
  UserData c = "" /\ UserDataFile c <> "" /\ Stat env (UserDataFile c) <> None.
Proof.
  only_rule. unfold check_UserData, neq, not_nil.
  destruct (Stat env (UserDataFile c)); eqb_cases; simpl;
    intuition (try discriminate; try congruence).
Qed.

(** The interface error is reported exactly when the [ssh_interface] of
    the prepared communicator is not one of "public_ip", "private_ip",
    "public_dns", "private_dns" or empty. *)
Theorem ssh_interface_accepted (env : Env) (c : RunConfig) :
  In (Errorf ("Unknown interface type: " ++ SSHInterface (fst (prepared_comm env c))))
     (snd (RunConfig_Prepare env c)) <->
  ~ In (SSHInterface (fst (prepared_comm env c)))
       ["public_ip"; "private_ip"; "public_dns"; "private_dns"; ""].
Proof.
  only_rule. unfold check_SSHInterface, neq.
  eqb_cases; simpl; intuition (try discriminate; try congruence).
Qed.

(** The configuration [RunConfig.Prepare] returns always has [run_tags]
    non-nil, a non-zero [windows_password_timeout] and at least one
    temporary security group source CIDR; when no [shutdown_behavior] error
    is reported, its shutdown behavior is "stop" or "terminate". *)
Theorem RunConfig_Prepare_defaults (env : Env) (c : RunConfig) :
  RunTags (fst (RunConfig_Prepare env c)) <> None /\
  WindowsPasswordTimeout (fst (RunConfig_Prepare env c)) <> 0 /\
  TemporarySGSourceCidrs (fst (RunConfig_Prepare env c)) <> [] /\
  (~ In (Errorf msg_shutdown) (snd (RunConfig_Prepare env c)) ->
   InstanceInitiatedShutdownBehavior (fst (RunConfig_Prepare env c)) = "stop" \/
   InstanceInitiatedShutdownBehavior (fst (RunConfig_Prepare env c)) = "terminate").
Proof.
  rewrite RunConfig_Prepare_config. simpl. split; [|split; [|split]].
  - destruct (RunTags c); discriminate.
  - destruct (WindowsPasswordTimeout c =? 0) eqn:E;
      [unfold Minute; lia | apply Z.eqb_neq in E; exact E].
  - unfold prepare_TemporarySGSourceCidrs. destruct (TemporarySGSourceCidrs c); discriminate.
  - only_rule. unfold prepare_ShutdownBehavior, reShutdownBehavior_MatchString.
    eqb_cases; simpl; intuition (try discriminate; try congruence).
Qed.

End RunConfigRuleProofs.


(** ** Instance-type parsing and CIDR validation in RunConfig.Prepare *)
Module RunConfigParseProofs.
Import AmazonCommon RunConfigProofs.

(** Whether a string contains a byte. *)
Fixpoint contains_byte (s : string) (c : ascii) : bool :=
  match s with
  | EmptyString => false
  | String a s' => Ascii.eqb a c || contains_byte s' c
  end.

Lemma index_from_absent (s : string) (c : ascii) (i : Z) :
  contains_byte s c = false -> index_from s c i = -1.
Proof.
  revert i; induction s as [|a s IH]; intros i H; simpl in *; [reflexivity|].
  apply orb_false_iff in H as [H1 H2]. rewrite H1. apply IH, H2.
Qed.

Lemma index_from_split (p s : string) (c : ascii) (i : Z) :
  contains_byte p c = false -> index_from (p ++ String c s) c i = i + Z.of_nat (String.length p).
Proof.
  revert i; induction p as [|a p IH]; intros i H; simpl in *.
  - rewrite Ascii.eqb_refl. lia.
  - apply orb_false_iff in H as [H1 H2]. rewrite H1, IH by exact H2. lia.
Qed.

Lemma contains_split (s : string) (c : ascii) :
  contains_byte s c = true ->
  exists p s', s = p ++ String c s' /\ contains_byte p c = false.
Proof.
  induction s as [|a s IH]; simpl; [discriminate|]. intro H.
  destruct (Ascii.eqb a c) eqn:E.
  - apply Ascii.eqb_eq in E. subst a. exists "", s. auto.
  - destruct (IH H) as (p & s' & -> & Hp).
    exists (String a p), s'. simpl. rewrite E. auto.
Qed.

Lemma substring_prefix (p q : string) : substring 0 (String.length p) (p ++ q) = p.
Proof. induction p as [|a p IH]; simpl; [destruct q; reflexivity|]. rewrite IH. reflexivity. Qed.

Lemma slice_to_split (p s : string) (c : ascii) :
  slice_to (p ++ String c s) (Z.of_nat (String.length p)) = p.
Proof. unfold slice_to. rewrite Nat2Z.id. apply substring_prefix. Qed.

(** The splits of a string at its first occurrence of a byte are unique. *)
Lemma first_split_unique (p1 s1 p2 s2 : string) (c : ascii) :
  p1 ++ String c s1 = p2 ++ String c s2 ->
  contains_byte p1 c = false -> contains_byte p2 c = false -> p1 = p2.
Proof.
  intros E H1 H2.
  pose proof (index_from_split p1 s1 c 0 H1) as I1.
  pose proof (index_from_split p2 s2 c 0 H2) as I2.
  rewrite E, I2 in I1.
  rewrite <- (slice_to_split p1 s1 c), <- (slice_to_split p2 s2 c), E.
  f_equal. lia.
Qed.

Definition msg_t2_determine (it : string) : string :=
  "Error determining main Instance Type from: " ++ it.

Definition msg_t2_non_t2 (it : string) : string :=
  "Error: T2 Unlimited enabled with a non-T2 Instance Type: " ++ it.

Lemma t2_spot_part (c : RunConfig) (m : string) :
  m <> msg_t2_spot ->
  ~ In (Errorf m) (if negb (String.eqb (SpotPrice c) "") then [Errorf msg_t2_spot] else []).
Proof.
  intros Hm. destruct (negb _); simpl; [|tauto]. intros [H|H]; [congruence|exact H].
Qed.

Lemma contains_byte_split (p s : string) (c : ascii) :
  contains_byte (p ++ String c s) c = true.
Proof.
  induction p as [|a p IH]; simpl; [rewrite Ascii.eqb_refl; reflexivity|].
  rewrite IH. apply orb_true_r.
Qed.

Lemma check_T2_determine (c : RunConfig) :
  In (Errorf (msg_t2_determine (InstanceType c))) (check_T2Unlimited c) <->
  EnableT2Unlimited c = true /\ contains_byte (InstanceType c) "." = false.
Proof.
  unfold check_T2Unlimited, neq, IndexByte.
  destruct (EnableT2Unlimited c); simpl; [|intuition discriminate].
  rewrite in_app_iff.
  pose proof (t2_spot_part c (msg_t2_determine (InstanceType c))
                ltac:(unfold msg_t2_determine, msg_t2_spot; discriminate)) as Hs.
  destruct (contains_byte (InstanceType c) ".") eqn:Hc.
  - destruct (contains_split _ _ Hc) as (p & s & Hs' & Hp).
    assert (Hi : index_from (InstanceType c) "." 0 = Z.of_nat (String.length p))
      by (rewrite Hs', index_from_split by exact Hp; lia).
    rewrite Hi. replace (Z.of_nat (String.length p) =? -1) with false by lia.
    destruct (negb (String.eqb (slice_to _ _) "t2")); simpl; unfold msg_t2_determine;
      intuition (try discriminate; try congruence).
  - rewrite index_from_absent by exact Hc. simpl. tauto.
Qed.

Lemma check_T2_non_t2 (c : RunConfig) :
  In (Errorf (msg_t2_non_t2 (InstanceType c))) (check_T2Unlimited c) <->
  EnableT2Unlimited c = true /\
  exists p s, InstanceType c = p ++ String "." s /\ contains_byte p "." = false /\ p <> "t2".
Proof.
  unfold check_T2Unlimited, neq, IndexByte.
  destruct (EnableT2Unlimited c); simpl; [|intuition discriminate].
  rewrite in_app_iff.
  pose proof (t2_spot_part c (msg_t2_non_t2 (InstanceType c))
                ltac:(unfold msg_t2_non_t2, msg_t2_spot; discriminate)) as Hs.
  destruct (contains_byte (InstanceType c) ".") eqn:Hc.
  - destruct (contains_split _ _ Hc) as (p & s & Hs' & Hp).
    assert (Hi : index_from (InstanceType c) "." 0 = Z.of_nat (String.length p))
      by (rewrite Hs', index_from_split by exact Hp; lia).
    rewrite Hi. replace (Z.of_nat (String.length p) =? -1) with false by lia.
    assert (Hsl : slice_to (InstanceType c) (Z.of_nat (String.length p)) = p)
      by (rewrite Hs'; apply slice_to_split).
    rewrite Hsl.
    destruct (String.eqb p "t2") eqn:Et;
      [apply String.eqb_eq in Et | apply String.eqb_neq in Et]; simpl.
    + split; [unfold msg_t2_non_t2; intuition discriminate|].
      intros (_ & p' & s' & Hs'' & Hp' & Hne).
      exfalso. apply Hne. rewrite <- Et.
      exact (first_split_unique _ _ _ _ _ (eq_trans (eq_sym Hs'') Hs') Hp' Hp).
    + split; [intros _; split; [reflexivity|]; exists p, s; auto | auto].
  - rewrite index_from_absent by exact Hc. simpl.
    split; [unfold msg_t2_non_t2, msg_t2_determine; intuition discriminate|].
    intros (_ & p & s & Hs' & _ & _).
    rewrite Hs', contains_byte_split in Hc. discriminate.
Qed.

(** With [enable_t2_unlimited], the instance type is split at its first
    dot: when it has no dot, the "Error determining main Instance Type"
    error is reported; when the part before the first dot is not "t2", the
    "non-T2 Instance Type" error is reported; [t2.micro] passes, [t2] and
    [t3.micro] do not. Without [enable_t2_unlimited] neither is reported. *)
Theorem t2_instance_type_rule (env : Env) (c : RunConfig) :
  (In (Errorf (msg_t2_determine (InstanceType c))) (snd (RunConfig_Prepare env c)) <->
   EnableT2Unlimited c = true /\ contains_byte (InstanceType c) "." = false) /\
  (In (Errorf (msg_t2_non_t2 (InstanceType c))) (snd (RunConfig_Prepare env c)) <->
   EnableT2Unlimited c = true /\
   exists p s, InstanceType c = p ++ String "." s /\ contains_byte p "." = false /\ p <> "t2").
Proof.
  split.
  - rewrite <- check_T2_determine. unfold msg_t2_determine. only_rule. tauto.
  - rewrite <- check_T2_non_t2. unfold msg_t2_non_t2. only_rule. tauto.
Qed.

Definition cidr_prefix : string :=
  "Error parsing CIDR in temporary_security_group_source_cidrs: ".

(** The errors [RunConfig.Prepare] builds for a CIDR that does not parse
    (the communicator's own errors are not among them). *)
Definition is_cidr_error (e : error) : bool :=
  match e with Errorf m => String.prefix cidr_prefix m | Collab _ => false end.

Lemma check_cidrs_count (env : Env) (cidrs : list string) :
  filter is_cidr_error (check_cidrs env cidrs) = check_cidrs env cidrs /\
  length (check_cidrs env cidrs) = length (filter (fun x => not_nil (ParseCIDR env x)) cidrs).
Proof.
  induction cidrs as [|x rest [IH1 IH2]]; [split; reflexivity|].
  unfold check_cidrs; fold check_cidrs. simpl.
  destruct (ParseCIDR env x) as [err|]; simpl; [|auto].
  replace (String.prefix "" err) with true by (destruct err; reflexivity).
  rewrite IH1, IH2. auto.
Qed.

Ltac no_cidr_error :=
  repeat match goal with |- context [if ?b then _ else _] => destruct b end;
  reflexivity.

Lemma no_cidr_error_rules (env : Env) (k : CommConfig) (c : RunConfig) :
  filter is_cidr_error (check_SSHInterface k) = [] /\
  filter is_cidr_error (check_SSHKeyPairName k) = [] /\
  filter is_cidr_error (check_SourceAmi c) = [] /\
  filter is_cidr_error (check_SourceAmiOwner c) = [] /\
  filter is_cidr_error (check_InstanceType c) = [] /\
  filter is_cidr_error (check_InstanceTypeBoth c) = [] /\
  filter is_cidr_error (check_BlockDurationMinutes c) = [] /\
  filter is_cidr_error (check_SpotPriceAuto c) = [] /\
  filter is_cidr_error (check_SpotPriceAutoProduct c) = [] /\
  filter is_cidr_error (check_SpotTags c) = [] /\
  filter is_cidr_error (check_UserData env c) = [] /\
  filter is_cidr_error (snd (prepare_SecurityGroup c)) = [] /\
  filter is_cidr_error (snd (prepare_ShutdownBehavior c)) = [] /\
  filter is_cidr_error (check_T2Unlimited c) = [].
Proof.
  repeat split.
  - unfold check_SSHInterface. no_cidr_error.
  - unfold check_SSHKeyPairName. no_cidr_error.
  - unfold check_SourceAmi. no_cidr_error.
  - unfold check_SourceAmiOwner. no_cidr_error.
  - unfold check_InstanceType. no_cidr_error.
  - unfold check_InstanceTypeBoth. no_cidr_error.
  - unfold check_BlockDurationMinutes. no_cidr_error.
  - unfold check_SpotPriceAuto. no_cidr_error.
  - unfold check_SpotPriceAutoProduct. no_cidr_error.
  - unfold check_SpotTags. no_cidr_error.
  - unfold check_UserData. no_cidr_error.
  - unfold prepare_SecurityGroup. no_cidr_error.
  - unfold prepare_ShutdownBehavior. no_cidr_error.
  - unfold check_T2Unlimited. cbv zeta. rewrite ?filter_app. no_cidr_error.
Qed.

(** One CIDR error is reported per entry of
    [temporary_security_group_source_cidrs] that [net.ParseCIDR] rejects;
    an empty list is replaced by "0.0.0.0/0" without being parsed, so it
    never yields a CIDR error. *)
Theorem cidr_errors_count (env : Env) (c : RunConfig) :
  length (filter is_cidr_error (snd (RunConfig_Prepare env c))) =
  length (filter (fun x => not_nil (ParseCIDR env x)) (TemporarySGSourceCidrs c)).
Proof.
  rewrite RunConfig_Prepare_errors. rewrite !filter_app.
  assert (Hcollab : forall ks, filter is_cidr_error (map Collab ks) = []).
  { induction ks; simpl; auto. }
  rewrite Hcollab.
  destruct (no_cidr_error_rules env (fst (prepared_comm env c)) c)
    as (R1 & R2 & R3 & R4 & R5 & R6 & R7 & R8 & R9 & R10 & R11 & R12 & R13 & R14).
  rewrite R1, R2, R3, R4, R5, R6, R7, R8, R9, R10, R11, R12, R13, R14. simpl.
  rewrite app_nil_r.
  unfold prepare_TemporarySGSourceCidrs.
  destruct (TemporarySGSourceCidrs c) as [|x rest]; [reflexivity|].
  simpl snd. rewrite (proj1 (check_cidrs_count env (x :: rest))).
  apply (proj2 (check_cidrs_count env (x :: rest))).
Qed.

End RunConfigParseProofs.


(** ** The outcome of the virtualbox-ovf NewConfig *)
Module OvfResultProofs.
Import MultiError VirtualboxOvf OvfProofs.

(** The errors of the thirteen sub-configurations, in source order. *)
Definition sub_errors (r : SubConfigErrors) : list error :=
  concat [ExportConfigErrs r; ExportOptsErrs r; FloppyConfigErrs r; HTTPConfigErrs r;
          OutputConfigErrs r; RunConfigErrs r; ShutdownConfigErrs r; SSHConfigErrs r;
          VBoxManageConfigErrs r; VBoxManagePostConfigErrs r; VBoxVersionConfigErrs r;
          BootConfigErrs r; GuestAdditionsConfigErrs r].

Definition msg_invalid_mode : string :=
  "guest_additions_mode is invalid. Must be one of: [disable attach upload]".

(** The errors [NewConfig] collects: those of the sub-configurations, then
    its own checks of [source_path] (required, then [os.Stat]) and of
    [guest_additions_mode] (an empty mode is defaulted to "upload"). *)
Definition collected_errors (env : Env) (components : Config -> SubConfigErrors) (c0 : Config)
  : list error :=
  sub_errors (components (defaults env c0)) ++
  (if String.eqb (SourcePath c0) "" then [Errorf "source_path is required"] else []) ++
  match Stat env (SourcePath c0) with
  | Some err => [Errorf (msg_missing_source (SourcePath c0) err)]
  | None => []
  end ++
  (if existsb (String.eqb (GuestAdditionsMode c0)) [""; "disable"; "attach"; "upload"]
   then [] else [Errorf msg_invalid_mode]).

Lemma fold_append_errors (ess : list (list error)) (h : heap) (l : nat) :
  (l < length h)%nat ->
  exists h', fold_left append_step ess (h, Some l) = (h', Some l) /\
             (l < length h')%nat /\ Errors h' l = (Errors h l ++ concat ess)%list.
Proof.
  revert h; induction ess as [|es ess IH]; intros h Hl; simpl.
  - exists h. rewrite app_nil_r. auto.
  - destruct (MultiErrorAppend_in_place h l es Hl) as (E & Hlen & Herr).
    destruct (IH (set_nth l (Errors h l ++ es)%list h)) as (h' & E' & Hl' & Herr');
      [rewrite Hlen; exact Hl|].
    exists h'. split; [exact E'|]. split; [exact Hl'|].
    rewrite Herr', Herr, app_assoc. reflexivity.
Qed.

Lemma append_components_errors (r : SubConfigErrors) :
  exists h l, append_components [] None r = (h, Some l) /\ (l < length h)%nat /\
              Errors h l = sub_errors r.
Proof.
  change (append_components [] None r) with
    (fold_left append_step
       [ExportOptsErrs r; FloppyConfigErrs r; HTTPConfigErrs r;
        OutputConfigErrs r; RunConfigErrs r; ShutdownConfigErrs r; SSHConfigErrs r;
        VBoxManageConfigErrs r; VBoxManagePostConfigErrs r; VBoxVersionConfigErrs r;
        BootConfigErrs r; GuestAdditionsConfigErrs r]
       ([ExportConfigErrs r], Some 0%nat)).
  destruct (fold_append_errors
              [ExportOptsErrs r; FloppyConfigErrs r; HTTPConfigErrs r;
               OutputConfigErrs r; RunConfigErrs r; ShutdownConfigErrs r; SSHConfigErrs r;
               VBoxManageConfigErrs r; VBoxManagePostConfigErrs r; VBoxVersionConfigErrs r;
               BootConfigErrs r; GuestAdditionsConfigErrs r]
              [ExportConfigErrs r] 0 ltac:(simpl; lia)) as (h & E & Hl & Herr).
  exists h, 0%nat. split; [exact E|]. split; [exact Hl|]. rewrite Herr. reflexivity.
Qed.

(** An optional append in place through a valid pointer. *)
Lemma append_if (b : bool) (h : heap) (l : nat) (es : list error) :
  (l < length h)%nat ->
  exists h', (if b then MultiErrorAppend h (Some l) es else (h, Some l)) = (h', Some l) /\
             (l < length h')%nat /\
             Errors h' l = (Errors h l ++ if b then es else [])%list.
Proof.
  intro Hl. destruct b.
  - destruct (MultiErrorAppend_in_place h l es Hl) as (E & Hlen & Herr).
    exists (set_nth l (Errors h l ++ es)%list h). rewrite Hlen. auto.
  - exists h. rewrite app_nil_r. auto.
Qed.

(** The configuration [NewConfig] returns on success. *)
Definition resolved_config (env : Env) (c0 : Config) : Config :=
  let c := lower_checksums env (defaults env c0) in
  let c := if negb (String.eqb (GuestAdditionsSHA256 c) "")
           then set_GuestAdditionsSHA256 c (ToLower env (GuestAdditionsSHA256 c)) else c in
  if negb (String.eqb (ImportOpts c) "")
  then set_ImportFlags c (ImportFlags c ++ ["--options"; ImportOpts c])%list
  else c.

Definition shutdown_warnings (c0 : Config) : list string :=
  if String.eqb (ShutdownCommand c0) "" then [msg_shutdown_warning] else [].

Lemma mode_check (env : Env) (c0 : Config) :
  existsb (String.eqb (GuestAdditionsMode (defaults env c0))) validModes =
  existsb (String.eqb (GuestAdditionsMode c0)) [""; "disable"; "attach"; "upload"].
Proof.
  simpl. destruct (String.eqb (GuestAdditionsMode c0) "") eqn:E.
  - apply String.eqb_eq in E. rewrite E. reflexivity.
  - reflexivity.
Qed.

Lemma NewConfig_shape (env : Env) (components : Config -> SubConfigErrors) (c0 : Config) :
  NewConfig env components c0 =
  match collected_errors env components c0 with
  | [] => (Some (resolved_config env c0), shutdown_warnings c0, None)
  | errs => (None, shutdown_warnings c0, Some errs)
  end.
Proof.
  unfold NewConfig.
  destruct (append_components_errors (components (defaults env c0))) as (h0 & l & Ha & Hl & He).
  rewrite Ha.
  change (SourcePath (lower_checksums env (defaults env c0))) with (SourcePath c0).
  destruct (append_if (String.eqb (SourcePath c0) "") h0 l [Errorf "source_path is required"] Hl)
    as (h1 & E1 & Hl1 & He1).
  destruct (if String.eqb (SourcePath c0) "" then _ else _) as [h1' p1] eqn:E1'.
  injection E1 as Eh Ep. subst h1' p1.
  cbv beta iota.
  set (h2 := match Stat env (SourcePath c0) with
             | Some err => fst (MultiErrorAppend h1 (Some l) _)
             | None => h1 end).
  assert (Hl2 : (l < length h2)%nat /\
                Errors h2 l = (Errors h1 l ++
                  match Stat env (SourcePath c0) with
                  | Some err => [Errorf (msg_missing_source (SourcePath c0) err)]
                  | None => [] end)%list).
  { subst h2. destruct (Stat env (SourcePath c0)) as [err|].
    - destruct (MultiErrorAppend_in_place h1 l
                  [Errorf (msg_missing_source (SourcePath c0) err)] Hl1) as (E & Hlen & Herr).
      unfold msg_missing_source in *. rewrite E. cbn [fst]. rewrite Hlen. auto.
    - rewrite app_nil_r. auto. }
  destruct Hl2 as [Hl2 He2]. clearbody h2.
  change (GuestAdditionsMode (lower_checksums env (defaults env c0)))
    with (GuestAdditionsMode (defaults env c0)).
  rewrite mode_check.
  destruct (append_if (negb (existsb (String.eqb (GuestAdditionsMode c0))
                                      [""; "disable"; "attach"; "upload"]))
              h2 l [Errorf msg_invalid_mode] Hl2) as (h3 & E3 & Hl3 & He3).
  unfold msg_invalid_mode in E3.
  destruct (if negb (existsb _ _) then _ else _) as [h3' p3] eqn:E3'.
  injection E3 as Eh Ep. subst h3' p3.
  assert (Hc : Errors h3 l = collected_errors env components c0).
  { rewrite He3, He2, He1, He. unfold collected_errors, msg_invalid_mode.
    rewrite <- !app_assoc. f_equal. f_equal. f_equal.
    destruct (existsb _ _); reflexivity. }
  rewrite Hc. unfold resolved_config, shutdown_warnings.
  destruct (collected_errors env components c0);
    destruct (negb (String.eqb (GuestAdditionsSHA256 (lower_checksums env (defaults env c0))) ""));
    reflexivity.
Qed.

(** [NewConfig] returns exactly the errors of the thirteen
    sub-configurations followed by those of its own checks ([source_path]
    required, the [os.Stat] of [source_path], [guest_additions_mode] one of
    "disable", "attach", "upload" or empty): it fails, with a nil
    configuration, exactly when that list is non-empty, and it returns the
    [shutdown_command] warning whether it fails or not. *)
Theorem NewConfig_errors (env : Env) (components : Config -> SubConfigErrors) (c0 : Config) :
  snd (NewConfig env components c0) =
  match collected_errors env components c0 with [] => None | errs => Some errs end /\
  (fst (fst (NewConfig env components c0)) = None <-> collected_errors env components c0 <> []) /\
  snd (fst (NewConfig env components c0)) =
  (if String.eqb (ShutdownCommand c0) "" then [msg_shutdown_warning] else []).
Proof.
  rewrite NewConfig_shape. unfold shutdown_warnings.
  destruct (collected_errors env components c0); simpl;
    intuition (try discriminate; try congruence).
Qed.

(** On success, the configuration [NewConfig] returns has a valid
    [guest_additions_mode], a non-empty guest additions path, interface and
    [vm_name], an existing [source_path], lowered checksums, and the
    [import_flags] extended with "--options" and [import_opts] when
    [import_opts] is set. *)
Theorem NewConfig_success (env : Env) (components : Config -> SubConfigErrors)
    (c0 c : Config) (warnings : list string) (errs : option (list error)) :
  NewConfig env components c0 = (Some c, warnings, errs) ->
  errs = None /\
  In (GuestAdditionsMode c) validModes /\
  GuestAdditionsPath c <> "" /\ GuestAdditionsInterface c <> "" /\ VMName c <> "" /\
  SourcePath c = SourcePath c0 /\ SourcePath c <> "" /\ Stat env (SourcePath c) = None /\
  Checksum c = ToLower env (Checksum c0) /\ ChecksumType c = ToLower env (ChecksumType c0) /\
  ImportFlags c =
  (ImportFlags c0 ++
   if String.eqb (ImportOpts c0) "" then [] else ["--options"; ImportOpts c0])%list.
Proof.
  rewrite NewConfig_shape.
  destruct (collected_errors env components c0) eqn:Hc; [|discriminate].
  intro H. injection H as <- _ <-.
  unfold collected_errors in Hc.
  apply app_eq_nil in Hc as [_ Hc]. apply app_eq_nil in Hc as [Hsp Hc].
  apply app_eq_nil in Hc as [Hst Hmode].
  assert (Hres : forall P : Config -> Prop,
            P (lower_checksums env (defaults env c0)) ->
            (forall d v, P d -> P (set_GuestAdditionsSHA256 d v)) ->
            (forall d v, P d -> P (set_ImportFlags d v)) ->
            P (resolved_config env c0)).
  { intros P H0 H1 H2. unfold resolved_config. cbv zeta.
    repeat match goal with |- context [if ?b then _ else _] => destruct b end; auto. }
  split; [reflexivity|].
  split.
  { apply Hres; auto. simpl.
    destruct (String.eqb (GuestAdditionsMode c0) "") eqn:E; [simpl; auto|].
    destruct (existsb _ _) eqn:Ex; [|discriminate].
    simpl in Ex. rewrite E in Ex. simpl in Ex.
    apply orb_prop in Ex as [Ex|Ex]; [apply String.eqb_eq in Ex; rewrite Ex; simpl; auto|].
    apply orb_prop in Ex as [Ex|Ex]; [apply String.eqb_eq in Ex; rewrite Ex; simpl; auto|].
    apply orb_prop in Ex as [Ex|Ex]; [apply String.eqb_eq in Ex; rewrite Ex; simpl; auto|].
    discriminate. }
  split.
  { apply Hres; auto. simpl. destruct (String.eqb (GuestAdditionsPath c0) "") eqn:E;
      [discriminate | apply String.eqb_neq; exact E]. }
  split.
  { apply Hres; auto. simpl. destruct (String.eqb (GuestAdditionsInterface c0) "") eqn:E;
      [discriminate | apply String.eqb_neq; exact E]. }
  split.
  { apply Hres; auto. simpl. destruct (String.eqb (VMName c0) "") eqn:E;
      [discriminate | apply String.eqb_neq; exact E]. }
  assert (Hsrc : SourcePath (resolved_config env c0) = SourcePath c0)
    by (apply (Hres (fun d => SourcePath d = SourcePath c0)); auto).
  rewrite Hsrc.
  split; [reflexivity|].
  split.
  { destruct (String.eqb (SourcePath c0) "") eqn:E; [discriminate|].
    apply String.eqb_neq. exact E. }
  split; [destruct (Stat env (SourcePath c0)); [discriminate|reflexivity]|].
  split; [apply (Hres (fun d => Checksum d = ToLower env (Checksum c0))); auto|].
  split; [apply (Hres (fun d => ChecksumType d = ToLower env (ChecksumType c0))); auto|].
  unfold resolved_config. simpl.
  destruct (negb (String.eqb (GuestAdditionsSHA256 c0) "")); simpl;
    destruct (String.eqb (ImportOpts c0) ""); simpl; rewrite ?app_nil_r; reflexivity.
Qed.

(** A source file that exists, no sub-configuration error, and
    [import_opts] set. *)
Definition present_env : Env :=
  {| CommPrepare := fun k => (k, []);
     TimeOrderedUUID := "5d1c8e2a-0000-4000-8000-000000000000";
     Stat := fun _ => None;
     ParseCIDR := fun _ => None;
     ParseDuration := fun _ => inl 0;
     ToLower := fun s => s;
     InitTimeUnix := 1560000000 |}.

Definition ovf1 : Config :=
  {| PackerBuildName := "virtualbox-ovf"; ShutdownCommand := "";
     Checksum := ""; ChecksumType := "none"; GuestAdditionsMode := "";
     GuestAdditionsPath := ""; GuestAdditionsInterface := ""; GuestAdditionsSHA256 := "";
     ImportFlags := ["--vsys"; "0"]; ImportOpts := "keepallmacs";
     SourcePath := "/tmp/box.ovf"; VMName := "" |}.

(** The configuration [NewConfig] resolves from [ovf1]. *)
Definition ovf1_resolved : Config :=
  {| PackerBuildName := "virtualbox-ovf"; ShutdownCommand := "";
     Checksum := ""; ChecksumType := "none"; GuestAdditionsMode := "upload";
     GuestAdditionsPath := "VBoxGuestAdditions.iso"; GuestAdditionsInterface := "ide";
     GuestAdditionsSHA256 := "";
     ImportFlags := ["--vsys"; "0"; "--options"; "keepallmacs"]; ImportOpts := "keepallmacs";
     SourcePath := "/tmp/box.ovf"; VMName := "packer-virtualbox-ovf-1560000000" |}.

Lemma NewConfig_success_witness :
  None = @None (list error) /\
  In (GuestAdditionsMode ovf1_resolved) validModes /\
  GuestAdditionsPath ovf1_resolved <> "" /\ GuestAdditionsInterface ovf1_resolved <> "" /\
  VMName ovf1_resolved <> "" /\
  SourcePath ovf1_resolved = SourcePath ovf1 /\ SourcePath ovf1_resolved <> "" /\
  Stat present_env (SourcePath ovf1_resolved) = None /\
  Checksum ovf1_resolved = ToLower present_env (Checksum ovf1) /\
  ChecksumType ovf1_resolved = ToLower present_env (ChecksumType ovf1) /\
  ImportFlags ovf1_resolved =
  (ImportFlags ovf1 ++
   if String.eqb (ImportOpts ovf1) "" then [] else ["--options"; ImportOpts ovf1])%list.
Proof.
  apply (NewConfig_success present_env (fun _ => no_sub_errors) ovf1 ovf1_resolved
           [msg_shutdown_warning] None).
  vm_compute. reflexivity.
Defined.

End OvfResultProofs.
